(** * Smart AutoClicker, native detector (detection/detector.cpp)

    A shallow embedding of [Detector::detectCondition], [Detector::match],
    [Detector::isResultAboveThreshold] and [Detector::getColorDiff].

    Conventions of the embedding.
    - [int] values are [Z]; the detector's own additions and subtractions
      on them ([int_add], [int_sub]) wrap around at 32 bits.
    - [double] values are exact rationals ([Q]): the scores, the acceptance
      floor and the colour distance are the values the code's expressions
      denote, before rounding.  [getColorDiff_double] is the colour
      distance computed in binary64, rounding included.
    - A [cv::Mat] holding 8-bit pixels is a list of rows of pixels, a pixel
      being the list of its channel bytes.
    - The member objects of [Detector] form the record [Detector.t], which
      every operation takes and returns.  A call log kept in that record
      lists the calls made to the collaborators (bitmap processing, the
      correlation engine, the OCR engine, the result object).
    - [while (true)] loops take a fuel argument: [None] means the fuel ran
      out before the loop was left. *)

From Stdlib Require Import ZArith QArith Qabs String Ascii List Bool Arith Lia Lqa.
From Stdlib.Strings Require Import Byte.
Import ListNotations.

Local Open Scope Z_scope.

(** ** Machine integers and comparisons on doubles *)

Definition wrap32 (z : Z) : Z := (z + 2 ^ 31) mod 2 ^ 32 - 2 ^ 31.

Definition int_add (a b : Z) : Z := wrap32 (a + b).
Definition int_sub (a b : Z) : Z := wrap32 (a - b).

Definition Qltb (a b : Q) : bool :=
  match (a ?= b)%Q with
  | Lt => true
  | _ => false
  end.

(** ** OpenCV values *)

Module Rect.
Record t : Type := make { x : Z; y : Z; width : Z; height : Z }.
End Rect.

Module Size.
Record t : Type := make { width : Z; height : Z }.
End Size.

Definition Pixel : Type := list byte.

Module Mat.
Definition t : Type := list (list Pixel).

Definition rows (m : t) : nat := length m.
Definition cols (m : t) : nat := length (hd [] m).

(** [Mat::total()]: the number of pixels. *)
Definition total (m : t) : nat := length (concat m).

(** [Mat::data] over [total() * elemSize()] bytes. *)
Definition data (m : t) : list byte := concat (concat m).

(** [Mat::operator()(Rect)]: the sub-image covered by a rectangle. *)
Definition crop (m : t) (r : Rect.t) : t :=
  map (fun row => firstn (Z.to_nat (Rect.width r)) (skipn (Z.to_nat (Rect.x r)) row))
      (firstn (Z.to_nat (Rect.height r)) (skipn (Z.to_nat (Rect.y r)) m)).
End Mat.

(** [cv::Scalar]: [val[i]] for a channel index [i]. *)
Record Scalar : Type := mkScalar { val : nat -> Q }.

Definition channel (i : nat) (p : Pixel) : Z := Z.of_N (Byte.to_N (nth i p x00)).

Definition channelSum (i : nat) (pixels : list Pixel) : Z :=
  fold_right (fun p acc => channel i p + acc) 0 pixels.

(** [cv::mean]: per channel, the sum of the channel over all pixels divided
    by the number of pixels, and zero for an image without pixels; the
    exact quotient, where the library's double is that quotient rounded
    ([mean_double]). *)
Definition mean (m : Mat.t) : Scalar :=
  mkScalar (fun i =>
    if Nat.eqb (Mat.total m) 0 then 0%Q
    else (inject_Z (channelSum i (concat m)) / inject_Z (Z.of_nat (Mat.total m)))%Q).

(** ** Detector::getColorDiff

    The value of the function's expressions in exact arithmetic;
    [getColorDiff_double] is the same computation on doubles. *)

Definition getColorDiff (image condition : Mat.t) : Q :=
  let imageColorMeans := mean image in
  let conditionColorMeans := mean condition in
  let diff :=
    fold_left
      (fun diff i => (diff + Qabs (val imageColorMeans i - val conditionColorMeans i))%Q)
      (seq 0 3) 0%Q in
  ((diff * 100) / inject_Z (255 * 3))%Q.

(** ** The member objects of the detector *)

Module ScalableRoi.
Record t : Type := make { fullSize : Rect.t; scaled : Rect.t }.
End ScalableRoi.

(** The template image ([conditionImage]). *)
Module DetectionImage.
Record t : Type := make {
  fullSizeColor : Mat.t;
  scaledGray : Mat.t;
  scaledSize : Size.t
}.
End DetectionImage.

(** The screen frame ([screenImage]). *)
Module ScreenImage.
Record t : Type := make {
  fullSizeColor : Mat.t;
  scaledGray : Mat.t;
  fullSizeRoi : Rect.t;
  croppedFullSizeColor : Mat.t;
  croppedScaledGray : Mat.t
}.
End ScreenImage.

(** The correlation surface with the candidate last extracted from it. *)
Module MatchingResults.
Record t : Type := make {
  results : list (list Q);
  roi : ScalableRoi.t;
  maxVal : Q
}.
End MatchingResults.

(** ** Detector::isResultAboveThreshold

    The cast applies to the [int] difference [100 - threshold]; the division
    is a division of doubles. *)
Definition isResultAboveThreshold (results : MatchingResults.t) (threshold : Z) : bool :=
  Qltb (inject_Z (int_sub 100 threshold) / 100)%Q (MatchingResults.maxVal results).

(** The outcome handed back to the caller ([detectionResult]). *)
Module DetectionResult.
Record t : Type := make {
  found : bool;
  centerX : Z;
  centerY : Z;
  confidence : Q
}.
End DetectionResult.

(** A platform bitmap, seen as its pixels. *)
Definition Bitmap : Type := Mat.t.

(** Leptonica's [Pix]: the geometry given to [pixCreate (width, height, 32)]
    and, in [data], the [image.total() * image.elemSize()] bytes that the
    [memcpy] writes at the start of its buffer.  The part of the 32-bit
    buffer that the copy does not reach is not represented. *)
Module Pix.
Record t : Type := make { w : nat; h : nat; d : nat; data : list byte }.
End Pix.

Definition toPix (image : Mat.t) : Pix.t :=
  Pix.make (Mat.cols image) (Mat.rows image) 32 (Mat.data image).

(** The calls made to the collaborators, most recent first. *)
Inductive Call : Type :=
| CallProcessBitmap (conditionBitmap : Bitmap)
| CallMatchTemplate
| CallLocateNextMinMax
| CallSetImage (pix : Pix.t)
| CallSetResults (r : DetectionResult.t)
| CallClearResults.

Module Detector.
Record t : Type := make {
  scaleRatio : Q;
  screenImage : ScreenImage.t;
  conditionImage : DetectionImage.t;
  (** what the name [conditionBitmap] denotes where no parameter of a
      member function has that name *)
  conditionBitmap : Bitmap;
  detectionRoi : ScalableRoi.t;
  matchingResults : MatchingResults.t;
  detectionResult : DetectionResult.t;
  calls : list Call
}.

Definition log (c : Call) (d : t) : t :=
  make (scaleRatio d) (screenImage d) (conditionImage d) (conditionBitmap d)
       (detectionRoi d) (matchingResults d) (detectionResult d) (c :: calls d).

Definition setScreenImage (v : ScreenImage.t) (d : t) : t :=
  make (scaleRatio d) v (conditionImage d) (conditionBitmap d)
       (detectionRoi d) (matchingResults d) (detectionResult d) (calls d).

Definition setConditionImage (v : DetectionImage.t) (d : t) : t :=
  make (scaleRatio d) (screenImage d) v (conditionBitmap d)
       (detectionRoi d) (matchingResults d) (detectionResult d) (calls d).

Definition setDetectionRoi (v : ScalableRoi.t) (d : t) : t :=
  make (scaleRatio d) (screenImage d) (conditionImage d) (conditionBitmap d)
       v (matchingResults d) (detectionResult d) (calls d).

Definition setMatchingResults (v : MatchingResults.t) (d : t) : t :=
  make (scaleRatio d) (screenImage d) (conditionImage d) (conditionBitmap d)
       (detectionRoi d) v (detectionResult d) (calls d).

Definition setDetectionResult (v : DetectionResult.t) (d : t) : t :=
  make (scaleRatio d) (screenImage d) (conditionImage d) (conditionBitmap d)
       (detectionRoi d) (matchingResults d) v (calls d).
End Detector.

(** Two states of the detector that differ at most in the outcome and in
    the call log. *)
Definition sameCandidate (d d' : Detector.t) : Prop :=
  Detector.scaleRatio d' = Detector.scaleRatio d
  /\ Detector.screenImage d' = Detector.screenImage d
  /\ Detector.conditionImage d' = Detector.conditionImage d
  /\ Detector.detectionRoi d' = Detector.detectionRoi d
  /\ Detector.matchingResults d' = Detector.matchingResults d.

(** Two states of the detector that agree on everything but the correlation
    data, which a relation [R] links. *)
Definition sameButScores (R : MatchingResults.t -> MatchingResults.t -> Prop)
    (d d' : Detector.t) : Prop :=
  Detector.scaleRatio d' = Detector.scaleRatio d
  /\ Detector.screenImage d' = Detector.screenImage d
  /\ Detector.conditionImage d' = Detector.conditionImage d
  /\ Detector.detectionRoi d' = Detector.detectionRoi d
  /\ Detector.detectionResult d' = Detector.detectionResult d
  /\ Detector.calls d' = Detector.calls d
  /\ R (Detector.matchingResults d) (Detector.matchingResults d').

(** What the call log records. *)
Definition isResultWrite (c : Call) : bool :=
  match c with
  | CallSetResults _ | CallClearResults => true
  | _ => false
  end.

Definition isSetImage (c : Call) : bool :=
  match c with
  | CallSetImage _ => true
  | _ => false
  end.

Definition isMatchTemplate (c : Call) : bool :=
  match c with
  | CallMatchTemplate => true
  | _ => false
  end.

Definition isProcessBitmap (c : Call) : bool :=
  match c with
  | CallProcessBitmap _ => true
  | _ => false
  end.

Definition isLocate (c : Call) : bool :=
  match c with
  | CallLocateNextMinMax => true
  | _ => false
  end.

Definition countCalls (p : Call -> bool) (d : Detector.t) : nat :=
  List.length (filter p (Detector.calls d)).

Definition resultWrites : Detector.t -> nat := countCalls isResultWrite.
Definition ocrAttempts : Detector.t -> nat := countCalls isSetImage.
Definition correlationRuns : Detector.t -> nat := countCalls isMatchTemplate.
Definition templateReads : Detector.t -> nat := countCalls isProcessBitmap.
Definition extractions : Detector.t -> nat := countCalls isLocate.

(** The bitmaps read as templates, most recent first. *)
Definition bitmapsRead (d : Detector.t) : list Bitmap :=
  flat_map (fun c => match c with CallProcessBitmap b => [b] | _ => [] end) (Detector.calls d).

(** The images handed to the OCR engine, most recent first. *)
Definition ocrImages (d : Detector.t) : list Pix.t :=
  flat_map (fun c => match c with CallSetImage p => [p] | _ => [] end) (Detector.calls d).

(** ** The result object and the size check

    [DetectionResult::setResults], [DetectionResult::clearResults] and
    [ScreenImage::isCroppedScaledContains] are called by detector.cpp and
    defined elsewhere in the repository. *)

(** Modelled from the spec: the canonical not found value of the outcome,
    "found = false, coordinates/confidence ... zeroed". *)
Definition notFound : DetectionResult.t := DetectionResult.make false 0 0 0%Q.

(** Modelled from the spec: [DetectionResult::setResults], which sets the
    outcome in full ("fully set (found path)"). *)
Definition setResults (isFound : bool) (centerX centerY : Z) (maxVal : Q)
    (d : Detector.t) : Detector.t :=
  let r := DetectionResult.make isFound centerX centerY maxVal in
  Detector.log (CallSetResults r) (Detector.setDetectionResult r d).

(** Modelled from the spec: [DetectionResult::clearResults], which leaves
    the outcome "cleared to a canonical not found value". *)
Definition clearResults (d : Detector.t) : Detector.t :=
  Detector.log CallClearResults (Detector.setDetectionResult notFound d).

(** Modelled from the spec: [ScreenImage::isCroppedScaledContains], which
    "verifies the cropped search area is at least as large as the
    template". *)
Definition isCroppedScaledContains (img : ScreenImage.t) (size : Size.t) : bool :=
  (Size.width size <=? Z.of_nat (Mat.cols (ScreenImage.croppedScaledGray img)))
  && (Size.height size <=? Z.of_nat (Mat.rows (ScreenImage.croppedScaledGray img))).

(** ** std::string::find, [None] standing for [npos] *)

Definition find (text pattern : string) : option nat := index 0 pattern text.

(** ** while (true)

    The body of a loop tells how it is left: [Continue] covers both the
    [continue] statement and the end of the body, [Break] leaves the loop
    and [Return] leaves the function. *)

Inductive Flow (S : Type) : Type :=
| Continue (s : S)
| Break (s : S)
| Return (s : S).

Arguments Continue {S} s.
Arguments Break {S} s.
Arguments Return {S} s.

Fixpoint while_true {S : Type} (fuel : nat) (body : S -> Flow S) (s : S) : option (Flow S) :=
  match fuel with
  | O => None
  | Datatypes.S fuel' =>
      match body s with
      | Continue s' => while_true fuel' body s'
      | Break s' => Some (Break s')
      | Return s' => Some (Return s')
      end
  end.

(** The state a loop body hands on. *)
Definition flowState {S : Type} (f : Flow S) : S :=
  match f with
  | Continue s | Break s | Return s => s
  end.

(** Two runs of the text loop that leave it the same way. *)
Definition inLockstep (R : MatchingResults.t -> MatchingResults.t -> Prop)
    (o o' : option (Flow (bool * nat * Detector.t))) : Prop :=
  match o, o' with
  | None, None => True
  | Some (Break (f, c, d)), Some (Break (f', c', d'))
  | Some (Return (f, c, d)), Some (Return (f', c', d')) =>
      f = f' /\ c = c' /\ sameButScores R d d'
  | _, _ => False
  end.

(** ** Collaborators

    The members of the repository's other classes that detector.cpp calls
    ([DetectionImage], [ScreenImage], [ScalableRoi], [MatchingResults]) and
    the two engines ([cv::matchTemplate] with [TM_CCOEFF_NORMED], and
    Tesseract's [SetImage] followed by [GetUTF8Text]). *)

Class Collaborators : Type := {
  processBitmap : Bitmap -> Q -> DetectionImage.t;
  setFullSize : Rect.t -> Q -> ScalableRoi.t;
  fullSizeCenterX : ScalableRoi.t -> Z;
  fullSizeCenterY : ScalableRoi.t -> Z;
  isFullSizeContains : ScreenImage.t -> Rect.t -> bool;
  isScaledContains : ScreenImage.t -> Rect.t -> bool;
  setCropping : ScreenImage.t -> ScalableRoi.t -> ScreenImage.t;
  initResults : MatchingResults.t -> Mat.t -> Mat.t -> MatchingResults.t;
  matchTemplate : Mat.t -> Mat.t -> list (list Q);
  locateNextMinMax : MatchingResults.t -> Mat.t -> Q -> MatchingResults.t;
  GetUTF8Text : Pix.t -> string
}.

Section DetectorModel.

Context {collaborators : Collaborators}.

(** [conditionImage.processBitmap (env, conditionBitmap, ratio)] *)
Definition readCondition (conditionBitmap : Bitmap) (d : Detector.t) : Detector.t :=
  Detector.log (CallProcessBitmap conditionBitmap)
    (Detector.setConditionImage (processBitmap conditionBitmap (Detector.scaleRatio d)) d).

(** [screenImage.setCropping (detectionRoi)] *)
Definition cropScreen (d : Detector.t) : Detector.t :=
  Detector.setScreenImage (setCropping (Detector.screenImage d) (Detector.detectionRoi d)) d.

(** [cv::matchTemplate] writing into [matchingResults.initResults (...)] *)
Definition correlate (d : Detector.t) : Detector.t :=
  let search := ScreenImage.croppedScaledGray (Detector.screenImage d) in
  let templ := DetectionImage.scaledGray (Detector.conditionImage d) in
  let fresh := initResults (Detector.matchingResults d) search templ in
  Detector.log CallMatchTemplate
    (Detector.setMatchingResults
       (MatchingResults.make (matchTemplate search templ)
                             (MatchingResults.roi fresh) (MatchingResults.maxVal fresh)) d).

(** [matchingResults.locateNextMinMax] on the scaled gray template and the ratio *)
Definition nextCandidate (d : Detector.t) (results : MatchingResults.t) : MatchingResults.t :=
  locateNextMinMax results (DetectionImage.scaledGray (Detector.conditionImage d))
                   (Detector.scaleRatio d).

Definition locate (d : Detector.t) : Detector.t :=
  Detector.log CallLocateNextMinMax
    (Detector.setMatchingResults (nextCandidate d (Detector.matchingResults d)) d).

(** [screenImage.isScaledContains (matchingResults.roi.scaled)] *)
Definition candidateInBounds (d : Detector.t) : bool :=
  isScaledContains (Detector.screenImage d)
    (ScalableRoi.scaled (MatchingResults.roi (Detector.matchingResults d))).

(** [!isFullSizeContains (detectionRoi.fullSize) || !isScaledContains (detectionRoi.scaled)] *)
Definition roiInvalid (d : Detector.t) : bool :=
  negb (isFullSizeContains (Detector.screenImage d)
          (ScalableRoi.fullSize (Detector.detectionRoi d)))
  || negb (isScaledContains (Detector.screenImage d)
             (ScalableRoi.scaled (Detector.detectionRoi d))).

(** [n] extractions in a row. *)
Fixpoint locateN (n : nat) (d : Detector.t) : Detector.t :=
  match n with
  | O => d
  | S k => locate (locateN k d)
  end.

(** How many of the first [n] candidates extracted from [d] on are in
    bounds. *)
Fixpoint inBoundsCount (d : Detector.t) (n : nat) : nat :=
  match n with
  | O => 0
  | S k => inBoundsCount d k + (if candidateInBounds (locateN (S k) d) then 1 else 0)
  end.

(** The [setResults] call that ends both [match] functions. *)
Definition reportResults (isFound : bool) (d : Detector.t) : Detector.t :=
  let roi := MatchingResults.roi (Detector.matchingResults d) in
  setResults isFound
    (int_add (Rect.x (ScalableRoi.fullSize (Detector.detectionRoi d))) (fullSizeCenterX roi))
    (int_add (Rect.y (ScalableRoi.fullSize (Detector.detectionRoi d))) (fullSizeCenterY roi))
    (MatchingResults.maxVal (Detector.matchingResults d))
    d.

(** ** Detector::match (conditionBitmap, threshold) *)

(** The colour distance computed inside the loop. *)
Definition candidateColorDiff (d : Detector.t) : Q :=
  getColorDiff (ScreenImage.croppedFullSizeColor (Detector.screenImage d))
               (DetectionImage.fullSizeColor (Detector.conditionImage d)).

Definition match_threshold_body (threshold : Z) (s : bool * Detector.t)
    : Flow (bool * Detector.t) :=
  let '(isFound, d) := s in
  let d := locate d in
  if negb (candidateInBounds d) then Continue (isFound, d)
  else if negb (isResultAboveThreshold (Detector.matchingResults d) threshold)
  then Break (false, d)
  else
    let colorDiff := candidateColorDiff d in
    if Qltb colorDiff (inject_Z threshold) then Break (true, d)
    else Continue (isFound, d).

Definition match_threshold (fuel : nat) (conditionBitmap : Bitmap) (threshold : Z)
    (d : Detector.t) : option Detector.t :=
  if roiInvalid d then Some (clearResults d)
  else
    let d := readCondition conditionBitmap d in
    let d := cropScreen d in
    if negb (isCroppedScaledContains (Detector.screenImage d)
               (DetectionImage.scaledSize (Detector.conditionImage d)))
    then Some (clearResults d)
    else
      let d := correlate d in
      match while_true fuel (match_threshold_body threshold) (false, d) with
      | None => None
      | Some (Return (_, d)) => Some d
      | Some (Break (isFound, d)) | Some (Continue (isFound, d)) =>
          Some (reportResults isFound d)
      end.

(** ** Detector::match (conditionBitmap, identifying) *)

Definition match_text_body (identifying : string) (s : bool * nat * Detector.t)
    : Flow (bool * nat * Detector.t) :=
  let '(isFound, repeatCycle, d) := s in
  let d := locate d in
  if negb (candidateInBounds d) then Continue (isFound, repeatCycle, d)
  else
    let image := ScreenImage.fullSizeColor (Detector.screenImage d) in
    let pix := toPix image in
    let d := Detector.log (CallSetImage pix) d in
    let ocrText := GetUTF8Text pix in
    match find ocrText identifying with
    | Some idx => Break (true, repeatCycle, d)
    | None =>
        let repeatCycle := S repeatCycle in
        if (100 <=? repeatCycle)%nat then Return (isFound, repeatCycle, clearResults d)
        else Continue (isFound, repeatCycle, d)
    end.

Definition match_text (fuel : nat) (conditionBitmap : Bitmap) (identifying : string)
    (d : Detector.t) : option Detector.t :=
  if roiInvalid d then Some (clearResults d)
  else
    let d := readCondition conditionBitmap d in
    let d := cropScreen d in
    if negb (isCroppedScaledContains (Detector.screenImage d)
               (DetectionImage.scaledSize (Detector.conditionImage d)))
    then Some (clearResults d)
    else
      let d := correlate d in
      match while_true fuel (match_text_body identifying) (false, 0%nat, d) with
      | None => None
      | Some (Return (_, _, d)) => Some d
      | Some (Break (isFound, _, d)) | Some (Continue (isFound, _, d)) =>
          Some (reportResults isFound d)
      end.

(** The state in which the search loop of either [match] starts. *)
Definition prepared (conditionBitmap : Bitmap) (d : Detector.t) : Detector.t :=
  correlate (cropScreen (readCondition conditionBitmap d)).

(** The cropped search area and the template's scaled size, as the second
    check of [match] compares them. *)
Definition searchArea (d : Detector.t) : Mat.t :=
  ScreenImage.croppedScaledGray (setCropping (Detector.screenImage d) (Detector.detectionRoi d)).

Definition templateSize (conditionBitmap : Bitmap) (d : Detector.t) : Size.t :=
  DetectionImage.scaledSize (processBitmap conditionBitmap (Detector.scaleRatio d)).

Definition templateFits (conditionBitmap : Bitmap) (d : Detector.t) : bool :=
  (Size.width (templateSize conditionBitmap d) <=? Z.of_nat (Mat.cols (searchArea d)))
  && (Size.height (templateSize conditionBitmap d) <=? Z.of_nat (Mat.rows (searchArea d))).

(** The text the OCR engine extracts in a call on the state [d]. *)
Definition extractedText (d : Detector.t) : string :=
  GetUTF8Text (toPix (ScreenImage.fullSizeColor (Detector.screenImage d))).

(** The region of the frame covered by the candidate held in [d]: the
    candidate's full-size rectangle, placed at the origin of the region of
    interest. *)
Definition candidateRegion (d : Detector.t) : Mat.t :=
  let origin := ScalableRoi.fullSize (Detector.detectionRoi d) in
  let r := ScalableRoi.fullSize (MatchingResults.roi (Detector.matchingResults d)) in
  Mat.crop (ScreenImage.fullSizeColor (Detector.screenImage d))
    (Rect.make (Rect.x origin + Rect.x r) (Rect.y origin + Rect.y r)
               (Rect.width r) (Rect.height r)).

(** ** Detector::detectCondition, the four overloads *)

Definition wholeFrameRoi (d : Detector.t) : Detector.t :=
  Detector.setDetectionRoi
    (setFullSize (ScreenImage.fullSizeRoi (Detector.screenImage d)) (Detector.scaleRatio d)) d.

Definition rectRoi (x y width height : Z) (d : Detector.t) : Detector.t :=
  Detector.setDetectionRoi
    (setFullSize (Rect.make x y width height) (Detector.scaleRatio d)) d.

Definition detectCondition_threshold (fuel : nat) (conditionBitmap : Bitmap)
    (threshold : Z) (d : Detector.t) : option Detector.t :=
  match_threshold fuel conditionBitmap threshold (wholeFrameRoi d).

Definition detectCondition_rect_threshold (fuel : nat) (conditionBitmap : Bitmap)
    (x y width height : Z) (threshold : Z) (d : Detector.t) : option Detector.t :=
  match_threshold fuel conditionBitmap threshold (rectRoi x y width height d).

(** The parameter of this overload is named [conditionImage]; the name
    [conditionBitmap] in its body is therefore not the parameter. *)
Definition detectCondition_text (fuel : nat) (conditionImage : Bitmap)
    (identifying : string) (d : Detector.t) : option Detector.t :=
  let d := wholeFrameRoi d in
  match_text fuel (Detector.conditionBitmap d) identifying d.

Definition detectCondition_rect_text (fuel : nat) (conditionBitmap : Bitmap)
    (x y width height : Z) (identifying : string) (d : Detector.t) : option Detector.t :=
  match_text fuel conditionBitmap identifying (rectRoi x y width height d).

End DetectorModel.

(** ** A reference environment

    A concrete set of collaborators at scale ratio 1, on which the detector
    can be run on small frames.  The helpers of [ScreenImage], [ScalableRoi]
    and [MatchingResults] follow the spec; the two engines are stand-ins. *)

Module Reference.

(** Modelled from the spec: the bounds check of a rectangle against an
    image ("bounds checks in each respective space"). *)
Definition contains (m : Mat.t) (r : Rect.t) : bool :=
  (0 <=? Rect.x r) && (0 <=? Rect.y r)
  && (0 <=? Rect.width r) && (0 <=? Rect.height r)
  && (Rect.x r + Rect.width r <=? Z.of_nat (Mat.cols m))
  && (Rect.y r + Rect.height r <=? Z.of_nat (Mat.rows m)).

Definition sizeOf (m : Mat.t) : Size.t :=
  Size.make (Z.of_nat (Mat.cols m)) (Z.of_nat (Mat.rows m)).

(** Modelled from the spec: [DetectionImage::processBitmap] at ratio 1,
    where the scaled view has the size of the bitmap; the gray conversion is
    left out. *)
Definition processBitmap (b : Bitmap) (ratio : Q) : DetectionImage.t :=
  DetectionImage.make b b (sizeOf b).

(** Modelled from the spec: [ScalableRoi::setFullSize] at ratio 1, where the
    scaled rectangle is the full-size one. *)
Definition setFullSize (r : Rect.t) (ratio : Q) : ScalableRoi.t :=
  ScalableRoi.make r r.

(** Modelled from the spec: the centre of the full-size rectangle. *)
Definition fullSizeCenterX (roi : ScalableRoi.t) : Z :=
  Rect.x (ScalableRoi.fullSize roi) + Rect.width (ScalableRoi.fullSize roi) / 2.

(** Modelled from the spec: the centre of the full-size rectangle. *)
Definition fullSizeCenterY (roi : ScalableRoi.t) : Z :=
  Rect.y (ScalableRoi.fullSize roi) + Rect.height (ScalableRoi.fullSize roi) / 2.

(** Modelled from the spec: [isFullSizeContains], a bounds check in the
    full-size space. *)
Definition isFullSizeContains (img : ScreenImage.t) (r : Rect.t) : bool :=
  contains (ScreenImage.fullSizeColor img) r.

(** Modelled from the spec: [isScaledContains], a bounds check in the scaled
    space. *)
Definition isScaledContains (img : ScreenImage.t) (r : Rect.t) : bool :=
  contains (ScreenImage.scaledGray img) r.

(** Modelled from the spec: [setCropping], which "derives cropped
    full-size-color and cropped scaled-gray views restricted to the ROI". *)
Definition setCropping (img : ScreenImage.t) (roi : ScalableRoi.t) : ScreenImage.t :=
  ScreenImage.make
    (ScreenImage.fullSizeColor img) (ScreenImage.scaledGray img)
    (ScreenImage.fullSizeRoi img)
    (Mat.crop (ScreenImage.fullSizeColor img) (ScalableRoi.fullSize roi))
    (Mat.crop (ScreenImage.scaledGray img) (ScalableRoi.scaled roi)).

(** Modelled from the spec: [initResults], which provides a fresh surface
    for the correlation engine to fill. *)
Definition initResults (old : MatchingResults.t) (search templ : Mat.t)
    : MatchingResults.t :=
  MatchingResults.make [] (MatchingResults.roi old) (MatchingResults.maxVal old).

Definition sameMat (a b : Mat.t) : bool :=
  if list_eq_dec (list_eq_dec (list_eq_dec Byte.byte_eq_dec)) a b then true else false.

(** A stand-in for the correlation engine: a surface of
    (rows - template rows + 1) by (columns - template columns + 1) scores,
    1 where the window equals the template and 0 elsewhere. *)
Definition matchTemplate (search templ : Mat.t) : list (list Q) :=
  let w := Mat.cols templ in
  let h := Mat.rows templ in
  map (fun r =>
         map (fun c =>
                if sameMat (Mat.crop search
                              (Rect.make (Z.of_nat c) (Z.of_nat r) (Z.of_nat w) (Z.of_nat h)))
                           templ
                then 1%Q else 0%Q)
             (seq 0 (Mat.cols search + 1 - w)))
      (seq 0 (Mat.rows search + 1 - h)).

Definition better (best : option (nat * nat * Q)) (cell : nat * nat * Q)
    : option (nat * nat * Q) :=
  match best with
  | None => Some cell
  | Some b => if Qltb (snd b) (snd cell) then Some cell else Some b
  end.

Definition cells (surface : list (list Q)) : list (nat * nat * Q) :=
  concat (map (fun '(r, row) => map (fun '(c, v) => (r, c, v))
                                    (combine (seq 0 (List.length row)) row))
              (combine (seq 0 (List.length surface)) surface)).

(** The first cell, in row-major order, that holds the largest score. *)
Definition globalMax (surface : list (list Q)) : option (nat * nat * Q) :=
  fold_left better (cells surface) None.

Definition sentinel : Q := (-1)%Q.

Definition within (center size i : nat) : bool :=
  (center <=? i + size / 2)%nat && (i + size / 2 <? center + size)%nat.

Definition suppress (surface : list (list Q)) (r0 c0 h w : nat) : list (list Q) :=
  map (fun '(r, row) =>
         map (fun '(c, v) => if within r0 h r && within c0 w c then sentinel else v)
             (combine (seq 0 (List.length row)) row))
      (combine (seq 0 (List.length surface)) surface).

(** Modelled from the spec: [locateNextMinMax], which "extracts the current
    global maximum from the ... surface, converts its matrix position to a
    scaled-coordinate ROI covering the template's footprint at that
    location, then overwrites a template-sized neighborhood around that
    position with a sentinel minimum". *)
Definition locateNextMinMax (m : MatchingResults.t) (templ : Mat.t) (ratio : Q)
    : MatchingResults.t :=
  match globalMax (MatchingResults.results m) with
  | None => m
  | Some (r, c, v) =>
      let footprint :=
        Rect.make (Z.of_nat c) (Z.of_nat r)
                  (Z.of_nat (Mat.cols templ)) (Z.of_nat (Mat.rows templ)) in
      MatchingResults.make
        (suppress (MatchingResults.results m) r c (Mat.rows templ) (Mat.cols templ))
        (ScalableRoi.make footprint footprint) v
  end.

(** A stand-in for the OCR engine: it reads the bytes of the image as
    characters. *)
Definition GetUTF8Text (pix : Pix.t) : string :=
  string_of_list_ascii (map ascii_of_byte (Pix.data pix)).

Definition env : Collaborators :=
  Build_Collaborators
    processBitmap setFullSize fullSizeCenterX fullSizeCenterY
    isFullSizeContains isScaledContains setCropping
    initResults matchTemplate locateNextMinMax GetUTF8Text.

(** A search that reports every footprint one pixel to the right of where
    the reference search finds it, and the environment built on it. *)
Definition shiftRight (r : Rect.t) : Rect.t :=
  Rect.make (Rect.x r + 1) (Rect.y r) (Rect.width r) (Rect.height r).

Definition locateShifted (m : MatchingResults.t) (templ : Mat.t) (ratio : Q)
    : MatchingResults.t :=
  let m' := locateNextMinMax m templ ratio in
  MatchingResults.make (MatchingResults.results m')
    (ScalableRoi.make (shiftRight (ScalableRoi.fullSize (MatchingResults.roi m')))
                      (shiftRight (ScalableRoi.scaled (MatchingResults.roi m'))))
    (MatchingResults.maxVal m').

Definition offFrame : Collaborators :=
  Build_Collaborators
    processBitmap setFullSize fullSizeCenterX fullSizeCenterY
    isFullSizeContains isScaledContains setCropping
    initResults matchTemplate locateShifted GetUTF8Text.

(** A detector holding [frame] as its screen image, nothing else done yet. *)
Definition start (frame : Mat.t) : Detector.t :=
  let whole := Rect.make 0 0 (Z.of_nat (Mat.cols frame)) (Z.of_nat (Mat.rows frame)) in
  let nowhere := Rect.make 0 0 0 0 in
  Detector.make 1%Q
    (ScreenImage.make frame frame whole [] [])
    (DetectionImage.make [] [] (Size.make 0 0))
    []
    (ScalableRoi.make nowhere nowhere)
    (MatchingResults.make [] (ScalableRoi.make nowhere nowhere) 0%Q)
    notFound
    [].

(** The same detector, the name [conditionBitmap] denoting [stale]. *)
Definition startWith (stale : Bitmap) (frame : Mat.t) : Detector.t :=
  let d := start frame in
  Detector.make (Detector.scaleRatio d) (Detector.screenImage d)
    (Detector.conditionImage d) stale (Detector.detectionRoi d)
    (Detector.matchingResults d) (Detector.detectionResult d) (Detector.calls d).

Definition black : Pixel := [x00; x00; x00].
Definition white : Pixel := [xff; xff; xff].

(** One row, a black pixel followed by a white one. *)
Definition blackWhite : Mat.t := [[black; white]].
Definition whiteDot : Mat.t := [[white]].
Definition blackDot : Mat.t := [[black]].

(** A 2 x 2 white image and a 2 x 2 black one. *)
Definition whiteSquare : Mat.t := [[white; white]; [white; white]].
Definition blackSquare : Mat.t := [[black; black]; [black; black]].

(** Two pixels whose six bytes read LOGIN followed by an exclamation mark,
    the left one alone, and the two in the other order. *)
Definition loginFrame : Mat.t := [[[x4c; x4f; x47]; [x49; x4e; x21]]].
Definition loginDot : Mat.t := [[[x4c; x4f; x47]]].
Definition inLogFrame : Mat.t := [[[x49; x4e; x21]; [x4c; x4f; x47]]].

(** The state at the head of the search loop for a whole-frame call. *)
Definition atLoop (frame templ : Mat.t) : Detector.t :=
  @prepared env templ (@wholeFrameRoi env (start frame)).

(** A white 1 x 1 frame, a black 1 x 1 template and a surface holding the
    score 1. *)
Definition whiteVersusBlack : Detector.t :=
  Detector.setMatchingResults
    (MatchingResults.make [[1%Q]] (ScalableRoi.make (Rect.make 0 0 0 0) (Rect.make 0 0 0 0)) 0%Q)
    (atLoop whiteDot blackDot).

(** The same states in the environment that reports footprints one pixel to
    the right. *)
Definition wholeFrameOff (frame : Mat.t) : Detector.t :=
  @wholeFrameRoi offFrame (start frame).

Definition atLoopOff (frame templ : Mat.t) : Detector.t :=
  @prepared offFrame templ (wholeFrameOff frame).

End Reference.

(** ** Further notions used to state properties of the detector *)

From Stdlib Require Import Permutation.
From Corelib Require PrimFloat.

(** The image with every pixel cut down to its first three channels. *)
Definition dropAlpha (m : Mat.t) : Mat.t := map (map (firstn 3)) m.

(** What a detection call leaves as it found it. *)
Definition keepsSetup (d d' : Detector.t) : Prop :=
  Detector.scaleRatio d' = Detector.scaleRatio d
  /\ Detector.detectionRoi d' = Detector.detectionRoi d
  /\ Detector.conditionBitmap d' = Detector.conditionBitmap d.

(** ** Detector::getColorDiff in double precision

    The same computation on binary64 values, rounding included.  The sums
    of 8-bit channel values are integers and exact; [cv::mean] returns each
    sum times [1. / n], and zero for an image without pixels. *)





(** ** Surfaces with different scores and the same candidates

    Surfaces of one row and two cells in which a cell holds either its
    score -- 1 and 0 in one surface, 1/2 and 1/4 in the other -- or the
    sentinel in both, together with the same candidate. *)
Definition sameCandidates (a b : MatchingResults.t) : Prop :=
  MatchingResults.roi a = MatchingResults.roi b
  /\ exists x0 x1 y0 y1,
       MatchingResults.results a = [[x0; x1]]
       /\ MatchingResults.results b = [[y0; y1]]
       /\ ((x0 = 1%Q /\ y0 = (1 # 2)%Q)
           \/ (x0 = Reference.sentinel /\ y0 = Reference.sentinel))
       /\ ((x1 = 0%Q /\ y1 = (1 # 4)%Q)
           \/ (x1 = Reference.sentinel /\ y1 = Reference.sentinel)).

(** The head of the loop on the frame that reads LOGIN, with the scores 1/2
    and 1/4 on the surface in place of 1 and 0. *)
Definition otherScores : Detector.t :=
  Detector.setMatchingResults
    (MatchingResults.make [[(1 # 2)%Q; (1 # 4)%Q]]
       (MatchingResults.roi
          (Detector.matchingResults (Reference.atLoop Reference.loginFrame Reference.loginDot)))
       (7 # 8)%Q)
    (Reference.atLoop Reference.loginFrame Reference.loginDot).


(** ** Colour distance *)

Lemma channel_range (i : nat) (p : Pixel) : 0 <= channel i p <= 255.
Proof.
  unfold channel.
  pose proof (Byte.to_N_bounded (nth i p x00)) as Hb.
  lia.
Qed.

Lemma channelSum_range (i : nat) (pixels : list Pixel) :
  0 <= channelSum i pixels <= 255 * Z.of_nat (length pixels).
Proof.
  induction pixels as [|p ps IH]; simpl.
  - lia.
  - pose proof (channel_range i p). lia.
Qed.

Lemma mean_range (m : Mat.t) (i : nat) : (0 <= val (mean m) i <= 255)%Q.
Proof.
  unfold mean; simpl.
  destruct (Nat.eqb_spec (Mat.total m) 0) as [E|E].
  - split; [apply Qle_refl | discriminate].
  - pose proof (channelSum_range i (concat m)) as [Hlo Hhi].
    fold (Mat.total m) in Hhi.
    assert (Hn : (0 < inject_Z (Z.of_nat (Mat.total m)))%Q).
    { change 0%Q with (inject_Z 0). rewrite <- Zlt_Qlt. lia. }
    split.
    + apply Qle_shift_div_l; [exact Hn|].
      rewrite Qmult_0_l. change 0%Q with (inject_Z 0). rewrite <- Zle_Qle. exact Hlo.
    + apply Qle_shift_div_r; [exact Hn|].
      change 255%Q with (inject_Z 255). rewrite <- inject_Z_mult, <- Zle_Qle. exact Hhi.
Qed.

Lemma Qabs_diff_range (a b : Q) :
  (0 <= a <= 255)%Q -> (0 <= b <= 255)%Q -> (0 <= Qabs (a - b) <= 255)%Q.
Proof.
  intros [Ha0 Ha1] [Hb0 Hb1]. split.
  - apply Qabs_nonneg.
  - apply Qabs_Qle_condition. split; lra.
Qed.

Lemma getColorDiff_unfold (X Y : Mat.t) :
  (getColorDiff X Y ==
   ((Qabs (val (mean X) 0 - val (mean Y) 0)
     + Qabs (val (mean X) 1 - val (mean Y) 1)
     + Qabs (val (mean X) 2 - val (mean Y) 2)) * 100) / (255 * 3))%Q.
Proof.
  unfold getColorDiff. cbn [seq fold_left].
  change (inject_Z (255 * 3)) with (255 * 3)%Q.
  rewrite Qplus_0_l. reflexivity.
Qed.

Lemma getColorDiff_range (X Y : Mat.t) : (0 <= getColorDiff X Y <= 100)%Q.
Proof.
  rewrite getColorDiff_unfold.
  pose proof (Qabs_diff_range _ _ (mean_range X 0) (mean_range Y 0)) as [H0 H0'].
  pose proof (Qabs_diff_range _ _ (mean_range X 1) (mean_range Y 1)) as [H1 H1'].
  pose proof (Qabs_diff_range _ _ (mean_range X 2) (mean_range Y 2)) as [H2 H2'].
  set (a := Qabs (val (mean X) 0 - val (mean Y) 0)) in *.
  set (b := Qabs (val (mean X) 1 - val (mean Y) 1)) in *.
  set (c := Qabs (val (mean X) 2 - val (mean Y) 2)) in *.
  split.
  - apply Qle_shift_div_l; [reflexivity|]. lra.
  - apply Qle_shift_div_r; [reflexivity|]. lra.
Qed.

Lemma getColorDiff_same (X : Mat.t) : (getColorDiff X X == 0)%Q.
Proof.
  rewrite getColorDiff_unfold.
  assert (E : forall q : Q, (Qabs (q - q) == 0)%Q).
  { intro q. assert (Hq : (q - q == 0)%Q) by ring. rewrite Hq. reflexivity. }
  rewrite !E. reflexivity.
Qed.


(** ** Comparisons, integers and strings *)

Lemma Qltb_lt (a b : Q) : Qltb a b = true <-> (a < b)%Q.
Proof.
  unfold Qltb. rewrite Qlt_alt.
  destruct (a ?= b)%Q; split; congruence.
Qed.

Lemma Qltb_ge (a b : Q) : Qltb a b = false <-> (b <= a)%Q.
Proof.
  split; intro H.
  - apply Qnot_lt_le. intro Hlt. apply Qltb_lt in Hlt. congruence.
  - destruct (Qltb a b) eqn:E; [|reflexivity].
    apply Qltb_lt in E. exfalso. exact (Qlt_not_le _ _ E H).
Qed.

Lemma wrap32_small (z : Z) : - 2 ^ 31 <= z < 2 ^ 31 -> wrap32 z = z.
Proof.
  intro H. unfold wrap32.
  rewrite Z.mod_small by lia. lia.
Qed.

Lemma prefix_append (p s : string) :
  prefix p s = true <-> exists post, s = (p ++ post)%string.
Proof.
  revert s. induction p as [|a p IH]; intro s; simpl.
  - split; [intros _; exists s; reflexivity | intros _; destruct s; reflexivity].
  - destruct s as [|b s].
    + split; [discriminate | intros [post H]; discriminate].
    + cbn [prefix]. destruct (ascii_dec a b) as [E|E].
      * subst b. rewrite IH. split; intros [post H]; exists post.
        -- now rewrite H.
        -- now inversion H.
      * split; [discriminate|]. intros [post H]. inversion H. congruence.
Qed.

Lemma find_substring (text pattern : string) :
  find text pattern <> None
  <-> exists pre post, text = (pre ++ pattern ++ post)%string.
Proof.
  unfold find. induction text as [|c text IH].
  - simpl. destruct pattern as [|a p].
    + split; [intros _; exists EmptyString, EmptyString; reflexivity | discriminate].
    + split; [congruence|].
      intros [pre [post H]]. destruct pre; discriminate.
  - cbn [index]. destruct (prefix pattern (String c text)) eqn:P.
    + split; [intros _ | discriminate].
      apply prefix_append in P. destruct P as [post H].
      exists EmptyString, post. exact H.
    + split.
      * intro H.
        assert (H' : index 0 pattern text <> None).
        { destruct (index 0 pattern text); [discriminate | congruence]. }
        apply IH in H'. destruct H' as [pre [post E]].
        exists (String c pre), post. simpl. now rewrite E.
      * intros [pre [post E]]. destruct pre as [|c' pre].
        -- simpl in E.
           assert (P' : prefix pattern (String c text) = true).
           { apply prefix_append. exists post. exact E. }
           congruence.
        -- simpl in E. inversion E as [[Ec Et]].
           assert (H' : index 0 pattern text <> None).
           { apply IH. exists pre, post. exact Et. }
           rewrite <- Et. destruct (index 0 pattern text); [discriminate | congruence].
Qed.

(** ** Loops *)

Lemma while_true_continue {S : Type} (body : S -> Flow S) (fuel : nat) (s s' : S) :
  body s = Continue s' ->
  while_true (Datatypes.S fuel) body s = while_true fuel body s'.
Proof. intro H. simpl. now rewrite H. Qed.

Lemma while_true_break {S : Type} (body : S -> Flow S) (fuel : nat) (s s' : S) :
  body s = Break s' ->
  while_true (Datatypes.S fuel) body s = Some (Break s').
Proof. intro H. simpl. now rewrite H. Qed.

Lemma while_true_return {S : Type} (body : S -> Flow S) (fuel : nat) (s s' : S) :
  body s = Return s' ->
  while_true (Datatypes.S fuel) body s = Some (Return s').
Proof. intro H. simpl. now rewrite H. Qed.

Lemma while_true_never_continues {S : Type} (body : S -> Flow S) (fuel : nat) (s s' : S) :
  while_true fuel body s <> Some (Continue s').
Proof.
  revert s. induction fuel as [|fuel IH]; intro s; simpl.
  - discriminate.
  - destruct (body s); [apply IH | discriminate | discriminate].
Qed.

(** ** The call log *)

Lemma countCalls_log (p : Call -> bool) (c : Call) (d : Detector.t) :
  countCalls p (Detector.log c d) = ((if p c then 1 else 0) + countCalls p d)%nat.
Proof.
  unfold countCalls. destruct d; simpl. destruct (p c); reflexivity.
Qed.

Lemma countCalls_clearResults (p : Call -> bool) (d : Detector.t) :
  countCalls p (clearResults d) = ((if p CallClearResults then 1 else 0) + countCalls p d)%nat.
Proof. unfold clearResults. now rewrite countCalls_log. Qed.

Lemma countCalls_setResults (p : Call -> bool) (f : bool) (x y : Z) (v : Q) (d : Detector.t) :
  countCalls p (setResults f x y v d)
  = ((if p (CallSetResults (DetectionResult.make f x y v)) then 1 else 0) + countCalls p d)%nat.
Proof. unfold setResults. cbv zeta. now rewrite countCalls_log. Qed.

Ltac count_calls :=
  unfold ocrAttempts, resultWrites, extractions, correlationRuns, templateReads in *;
  rewrite ?countCalls_clearResults, ?countCalls_setResults, ?countCalls_log;
  cbn [isSetImage isResultWrite isLocate isMatchTemplate isProcessBitmap];
  try lia.

Section DetectorProofs.

Context {collaborators : Collaborators}.

Lemma countCalls_locate (p : Call -> bool) (d : Detector.t) :
  countCalls p (locate d)
  = ((if p CallLocateNextMinMax then 1 else 0) + countCalls p d)%nat.
Proof. unfold locate. now rewrite countCalls_log. Qed.

Lemma sameCandidate_refl (d : Detector.t) : sameCandidate d d.
Proof. repeat split. Qed.

Lemma sameCandidate_trans (a b c : Detector.t) :
  sameCandidate a b -> sameCandidate b c -> sameCandidate a c.
Proof.
  unfold sameCandidate. intros (H1 & H2 & H3 & H4 & H5) (K1 & K2 & K3 & K4 & K5).
  repeat split; congruence.
Qed.

Lemma sameCandidate_log (c : Call) (d : Detector.t) : sameCandidate d (Detector.log c d).
Proof. repeat split. Qed.

Lemma sameCandidate_clearResults (d : Detector.t) : sameCandidate d (clearResults d).
Proof. repeat split. Qed.

Lemma sameCandidate_locate (d d' : Detector.t) :
  sameCandidate d d' -> sameCandidate (locate d) (locate d').
Proof.
  intros (H1 & H2 & H3 & H4 & H5).
  unfold sameCandidate, locate, nextCandidate. cbn.
  rewrite H1, H2, H3, H4, H5. repeat split.
Qed.

Lemma sameCandidate_locateN (n : nat) (d d' : Detector.t) :
  sameCandidate d d' -> sameCandidate (locateN n d) (locateN n d').
Proof.
  intro H. induction n as [|n IH]; simpl; [exact H | now apply sameCandidate_locate].
Qed.

Lemma candidateInBounds_same (d d' : Detector.t) :
  sameCandidate d d' -> candidateInBounds d' = candidateInBounds d.
Proof.
  intros (H1 & H2 & H3 & H4 & H5). unfold candidateInBounds. now rewrite H2, H5.
Qed.

Lemma extractedText_same (d d' : Detector.t) :
  sameCandidate d d' -> extractedText d' = extractedText d.
Proof.
  intros (H1 & H2 & H3 & H4 & H5). unfold extractedText. now rewrite H2.
Qed.

Lemma extractedText_locate (d : Detector.t) : extractedText (locate d) = extractedText d.
Proof. reflexivity. Qed.

Lemma extractedText_locateN (n : nat) (d : Detector.t) :
  extractedText (locateN n d) = extractedText d.
Proof. induction n as [|n IH]; simpl; [reflexivity | now rewrite extractedText_locate]. Qed.

Lemma candidateColorDiff_locate (d : Detector.t) :
  candidateColorDiff (locate d) = candidateColorDiff d.
Proof. reflexivity. Qed.

Lemma candidateColorDiff_locateN (n : nat) (d : Detector.t) :
  candidateColorDiff (locateN n d) = candidateColorDiff d.
Proof. induction n as [|n IH]; simpl; [reflexivity | now rewrite candidateColorDiff_locate]. Qed.

Lemma locateN_shift (n : nat) (d : Detector.t) :
  locateN n (locate d) = locateN (S n) d.
Proof.
  induction n as [|n IH]; [reflexivity|].
  change (locateN (S n) (locate d)) with (locate (locateN n (locate d))).
  now rewrite IH.
Qed.

Lemma inBoundsCount_same (n : nat) (d d' : Detector.t) :
  sameCandidate d d' -> inBoundsCount d' n = inBoundsCount d n.
Proof.
  intro H. induction n as [|n IH]; [reflexivity|].
  cbn [inBoundsCount]. rewrite IH.
  now rewrite (candidateInBounds_same _ _ (sameCandidate_locateN (S n) _ _ H)).
Qed.

Lemma inBoundsCount_head (n : nat) (d : Detector.t) :
  inBoundsCount d (S n)
  = ((if candidateInBounds (locate d) then 1 else 0) + inBoundsCount (locate d) n)%nat.
Proof.
  induction n as [|n IH]; [cbn; lia|].
  change (inBoundsCount d (S (S n)))
    with (inBoundsCount d (S n)
          + (if candidateInBounds (locateN (S (S n)) d) then 1 else 0))%nat.
  rewrite IH.
  change (inBoundsCount (locate d) (S n))
    with (inBoundsCount (locate d) n
          + (if candidateInBounds (locateN (S n) (locate d)) then 1 else 0))%nat.
  rewrite locateN_shift. lia.
Qed.

Lemma inBoundsCount_last (n : nat) (d : Detector.t) :
  candidateInBounds (locateN (S n) d) = true -> (1 <= inBoundsCount d (S n))%nat.
Proof.
  intro H. cbn [inBoundsCount]. rewrite H. lia.
Qed.

Lemma extractions_locateN (n : nat) (d : Detector.t) :
  extractions (locateN n d) = (extractions d + n)%nat.
Proof.
  induction n as [|n IH]; cbn [locateN]; [lia|].
  unfold extractions in *. rewrite countCalls_locate, IH. cbn [isLocate]. lia.
Qed.

Lemma calls_locateN (n : nat) (d : Detector.t) :
  Detector.calls (locateN n d) = repeat CallLocateNextMinMax n ++ Detector.calls d.
Proof.
  induction n as [|n IH]; simpl; [reflexivity | now rewrite IH].
Qed.

Lemma detectionResult_locateN (n : nat) (d : Detector.t) :
  Detector.detectionResult (locateN n d) = Detector.detectionResult d.
Proof. induction n as [|n IH]; simpl; [reflexivity | exact IH]. Qed.

Lemma detectionRoi_locateN (n : nat) (d : Detector.t) :
  Detector.detectionRoi (locateN n d) = Detector.detectionRoi d.
Proof. induction n as [|n IH]; simpl; [reflexivity | exact IH]. Qed.

End DetectorProofs.

Section Guards.

Context {collaborators : Collaborators}.

Lemma templateFits_check (conditionBitmap : Bitmap) (d : Detector.t) :
  isCroppedScaledContains
    (Detector.screenImage (cropScreen (readCondition conditionBitmap d)))
    (DetectionImage.scaledSize
       (Detector.conditionImage (cropScreen (readCondition conditionBitmap d))))
  = templateFits conditionBitmap d.
Proof. reflexivity. Qed.

Lemma match_threshold_roiInvalid (fuel : nat) (b : Bitmap) (t : Z) (d : Detector.t) :
  roiInvalid d = true -> match_threshold fuel b t d = Some (clearResults d).
Proof. intro H. unfold match_threshold. now rewrite H. Qed.

Lemma match_text_roiInvalid (fuel : nat) (b : Bitmap) (id : string) (d : Detector.t) :
  roiInvalid d = true -> match_text fuel b id d = Some (clearResults d).
Proof. intro H. unfold match_text. now rewrite H. Qed.

Lemma match_threshold_tooLarge (fuel : nat) (b : Bitmap) (t : Z) (d : Detector.t) :
  roiInvalid d = false -> templateFits b d = false ->
  match_threshold fuel b t d = Some (clearResults (cropScreen (readCondition b d))).
Proof.
  intros H1 H2. unfold match_threshold.
  rewrite H1. cbv zeta. rewrite templateFits_check, H2. reflexivity.
Qed.

Lemma match_text_tooLarge (fuel : nat) (b : Bitmap) (id : string) (d : Detector.t) :
  roiInvalid d = false -> templateFits b d = false ->
  match_text fuel b id d = Some (clearResults (cropScreen (readCondition b d))).
Proof.
  intros H1 H2. unfold match_text.
  rewrite H1. cbv zeta. rewrite templateFits_check, H2. reflexivity.
Qed.

Lemma match_threshold_loop (fuel : nat) (b : Bitmap) (t : Z) (d : Detector.t) :
  roiInvalid d = false -> templateFits b d = true ->
  match_threshold fuel b t d =
  match while_true fuel (match_threshold_body t) (false, prepared b d) with
  | None => None
  | Some (Return (_, d')) => Some d'
  | Some (Break (isFound, d')) | Some (Continue (isFound, d')) =>
      Some (reportResults isFound d')
  end.
Proof.
  intros H1 H2. unfold match_threshold.
  rewrite H1. cbv zeta. rewrite templateFits_check, H2. reflexivity.
Qed.

Lemma match_text_loop (fuel : nat) (b : Bitmap) (id : string) (d : Detector.t) :
  roiInvalid d = false -> templateFits b d = true ->
  match_text fuel b id d =
  match while_true fuel (match_text_body id) (false, 0%nat, prepared b d) with
  | None => None
  | Some (Return (_, _, d')) => Some d'
  | Some (Break (isFound, _, d')) | Some (Continue (isFound, _, d')) =>
      Some (reportResults isFound d')
  end.
Proof.
  intros H1 H2. unfold match_text.
  rewrite H1. cbv zeta. rewrite templateFits_check, H2. reflexivity.
Qed.

Lemma roiInvalid_true (d : Detector.t) :
  roiInvalid d = true <->
  isFullSizeContains (Detector.screenImage d)
    (ScalableRoi.fullSize (Detector.detectionRoi d)) = false
  \/ isScaledContains (Detector.screenImage d)
       (ScalableRoi.scaled (Detector.detectionRoi d)) = false.
Proof.
  unfold roiInvalid. rewrite orb_true_iff, !negb_true_iff. reflexivity.
Qed.

Lemma templateFits_false (b : Bitmap) (d : Detector.t) :
  templateFits b d = false <->
  Z.of_nat (Mat.cols (searchArea d)) < Size.width (templateSize b d)
  \/ Z.of_nat (Mat.rows (searchArea d)) < Size.height (templateSize b d).
Proof.
  unfold templateFits. rewrite andb_false_iff, !Z.leb_gt. reflexivity.
Qed.

(** C7: when the resolved region of interest is out of the frame bounds in
    the full-size or in the scaled coordinate space, either [match] returns
    at once, whatever the fuel, with the outcome cleared; the only call it
    has made is the one that clears the result: no template was read, no
    correlation was run, no candidate was extracted, no text was read. *)
Theorem roi_out_of_bounds_clears
    (fuel : nat) (conditionBitmap : Bitmap) (threshold : Z) (identifying : string)
    (d : Detector.t) :
  isFullSizeContains (Detector.screenImage d)
    (ScalableRoi.fullSize (Detector.detectionRoi d)) = false
  \/ isScaledContains (Detector.screenImage d)
       (ScalableRoi.scaled (Detector.detectionRoi d)) = false ->
  match_threshold fuel conditionBitmap threshold d = Some (clearResults d)
  /\ match_text fuel conditionBitmap identifying d = Some (clearResults d)
  /\ Detector.detectionResult (clearResults d) = notFound
  /\ Detector.calls (clearResults d) = CallClearResults :: Detector.calls d
  /\ templateReads (clearResults d) = templateReads d
  /\ correlationRuns (clearResults d) = correlationRuns d
  /\ extractions (clearResults d) = extractions d
  /\ ocrAttempts (clearResults d) = ocrAttempts d.
Proof.
  intro H. apply roiInvalid_true in H.
  split; [now apply match_threshold_roiInvalid|].
  split; [now apply match_text_roiInvalid|].
  repeat split.
Qed.

(** C6: when the template's scaled size exceeds the cropped search area in
    width or in height, either [match] returns, whatever the fuel, the
    pixels and the region of interest, with the outcome cleared (found is
    false), and the correlation engine has not been run. *)
Theorem template_too_large_clears
    (fuel : nat) (conditionBitmap : Bitmap) (threshold : Z) (identifying : string)
    (d : Detector.t) :
  Z.of_nat (Mat.cols (searchArea d)) < Size.width (templateSize conditionBitmap d)
  \/ Z.of_nat (Mat.rows (searchArea d)) < Size.height (templateSize conditionBitmap d) ->
  exists d',
    match_threshold fuel conditionBitmap threshold d = Some d'
    /\ match_text fuel conditionBitmap identifying d = Some d'
    /\ Detector.detectionResult d' = notFound
    /\ DetectionResult.found (Detector.detectionResult d') = false
    /\ correlationRuns d' = correlationRuns d
    /\ extractions d' = extractions d
    /\ resultWrites d' = S (resultWrites d).
Proof.
  intro H. apply templateFits_false in H.
  destruct (roiInvalid d) eqn:R.
  - exists (clearResults d).
    split; [now apply match_threshold_roiInvalid|].
    split; [now apply match_text_roiInvalid|].
    repeat split.
  - exists (clearResults (cropScreen (readCondition conditionBitmap d))).
    split; [now apply match_threshold_tooLarge|].
    split; [now apply match_text_tooLarge|].
    repeat split.
Qed.

End Guards.

Section Bodies.

Context {collaborators : Collaborators}.

Lemma threshold_body_cases (t : Z) (isFound : bool) (d : Detector.t) :
  match_threshold_body t (isFound, d) =
  if negb (candidateInBounds (locate d)) then Continue (isFound, locate d)
  else if negb (isResultAboveThreshold (Detector.matchingResults (locate d)) t)
  then Break (false, locate d)
  else if Qltb (candidateColorDiff (locate d)) (inject_Z t) then Break (true, locate d)
  else Continue (isFound, locate d).
Proof. reflexivity. Qed.

Lemma threshold_body_accepts (t : Z) (isFound : bool) (d : Detector.t) :
  candidateInBounds (locate d) = true ->
  (match_threshold_body t (isFound, d) = Break (true, locate d)
   <-> isResultAboveThreshold (Detector.matchingResults (locate d)) t = true
       /\ Qltb (candidateColorDiff (locate d)) (inject_Z t) = true).
Proof.
  intro Hin. rewrite threshold_body_cases, Hin. cbn [negb].
  destruct (isResultAboveThreshold _ t); cbn [negb].
  - destruct (Qltb _ (inject_Z t)); split; intro H;
      try discriminate; try (destruct H; discriminate); auto.
  - split; intro H; [discriminate | destruct H; discriminate].
Qed.

Lemma isResultAboveThreshold_floor (m : MatchingResults.t) (t : Z) :
  0 <= t <= 100 ->
  (isResultAboveThreshold m t = true
   <-> (inject_Z (100 - t) / 100 < MatchingResults.maxVal m)%Q).
Proof.
  intro Ht. unfold isResultAboveThreshold, int_sub.
  rewrite wrap32_small by lia. apply Qltb_lt.
Qed.

(** C1, as the code has it: in visual mode, for a threshold between 0 and
    100 and an in-bounds candidate, the candidate is accepted exactly when
    its correlation score is strictly above (100 - threshold) / 100 and the
    colour distance computed in the loop is strictly below the threshold.
    With threshold 0 no candidate is accepted; with threshold 100 the floor
    is 0, and a candidate with a positive score is accepted exactly when
    that colour distance is below 100. *)
Theorem visual_acceptance (t : Z) (isFound : bool) (d : Detector.t) :
  0 <= t <= 100 ->
  candidateInBounds (locate d) = true ->
  (match_threshold_body t (isFound, d) = Break (true, locate d)
   <-> (inject_Z (100 - t) / 100 < MatchingResults.maxVal (Detector.matchingResults (locate d)))%Q
       /\ (candidateColorDiff (locate d) < inject_Z t)%Q)
  /\ (t = 0 -> match_threshold_body t (isFound, d) <> Break (true, locate d))
  /\ (t = 100 ->
      (match_threshold_body t (isFound, d) = Break (true, locate d)
       <-> (0 < MatchingResults.maxVal (Detector.matchingResults (locate d)))%Q
           /\ (candidateColorDiff (locate d) < 100)%Q)).
Proof.
  intros Ht Hin.
  assert (Hiff :
    match_threshold_body t (isFound, d) = Break (true, locate d)
    <-> (inject_Z (100 - t) / 100 < MatchingResults.maxVal (Detector.matchingResults (locate d)))%Q
        /\ (candidateColorDiff (locate d) < inject_Z t)%Q).
  { rewrite (threshold_body_accepts t isFound d Hin).
    rewrite (isResultAboveThreshold_floor _ t Ht), Qltb_lt. reflexivity. }
  split; [exact Hiff|]. split.
  - intros E H. apply Hiff in H. destruct H as [_ H]. subst t.
    pose proof (getColorDiff_range
                  (ScreenImage.croppedFullSizeColor (Detector.screenImage (locate d)))
                  (DetectionImage.fullSizeColor (Detector.conditionImage (locate d))))
      as [Hlo _].
    unfold candidateColorDiff in H.
    exact (Qlt_not_le _ _ H Hlo).
  - intro E. rewrite Hiff. subst t.
    assert (E0 : (inject_Z (100 - 100) / 100 == 0)%Q) by reflexivity.
    rewrite E0. change (inject_Z 100) with 100%Q. reflexivity.
Qed.

Lemma text_body_cases (id : string) (isFound : bool) (rc : nat) (d : Detector.t) :
  match_text_body id (isFound, rc, d) =
  if negb (candidateInBounds (locate d)) then Continue (isFound, rc, locate d)
  else
    let d' := Detector.log
                (CallSetImage (toPix (ScreenImage.fullSizeColor (Detector.screenImage d))))
                (locate d) in
    match find (extractedText d) id with
    | Some _ => Break (true, rc, d')
    | None =>
        if (100 <=? S rc)%nat then Return (isFound, S rc, clearResults d')
        else Continue (isFound, S rc, d')
    end.
Proof. reflexivity. Qed.

(** C3, as the code has it: in text mode, for every in-bounds candidate, the
    image handed to the OCR engine is the screen image's whole full-size
    colour frame in the engine's pixel format, whichever candidate was
    extracted, and the candidate is accepted exactly when the target text
    occurs in the extracted text as a literal substring. *)
Theorem text_mode_ocr_input (id : string) (isFound : bool) (rc : nat) (d : Detector.t) :
  candidateInBounds (locate d) = true ->
  ocrImages (snd (flowState (match_text_body id (isFound, rc, d))))
  = toPix (ScreenImage.fullSizeColor (Detector.screenImage d)) :: ocrImages d
  /\ (match_text_body id (isFound, rc, d)
      = Break (true, rc,
               Detector.log
                 (CallSetImage (toPix (ScreenImage.fullSizeColor (Detector.screenImage d))))
                 (locate d))
      <-> exists pre post,
          GetUTF8Text (toPix (ScreenImage.fullSizeColor (Detector.screenImage d)))
          = (pre ++ id ++ post)%string).
Proof.
  intro Hin. rewrite text_body_cases, Hin. cbn [negb]. cbv zeta.
  rewrite <- find_substring. fold (extractedText d).
  destruct (find (extractedText d) id) as [idx|] eqn:F.
  - split; [reflexivity|]. split; [discriminate | reflexivity].
  - split.
    + destruct (100 <=? S rc)%nat; reflexivity.
    + split; [|congruence].
      destruct (100 <=? S rc)%nat; discriminate.
Qed.

End Bodies.

(** ** The detector on small frames *)

(** C1: with threshold 100, a white 1 x 1 frame, a black 1 x 1 template and
    an in-bounds candidate of score 1, the candidate has a positive
    correlation, its region is the image the loop compares, and it is not
    accepted: the colour distance is 100, which is not below 100. *)
Lemma threshold_100_rejects_positive_score :
  @candidateInBounds Reference.env (@locate Reference.env Reference.whiteVersusBlack) = true
  /\ (0 < MatchingResults.maxVal
            (Detector.matchingResults (@locate Reference.env Reference.whiteVersusBlack)))%Q
  /\ candidateRegion (@locate Reference.env Reference.whiteVersusBlack)
     = ScreenImage.croppedFullSizeColor
         (Detector.screenImage (@locate Reference.env Reference.whiteVersusBlack))
  /\ @match_threshold_body Reference.env 100 (false, Reference.whiteVersusBlack)
     = Continue (false, @locate Reference.env Reference.whiteVersusBlack).
Proof. vm_compute. repeat split. Qed.

(** C3: on a frame of one black and one white pixel with a white 1 x 1
    template, the first candidate is the white pixel; the image handed to
    the OCR engine is the whole two-pixel frame, not the region covered by
    the candidate. *)
Lemma ocr_reads_whole_frame_not_candidate :
  @candidateInBounds Reference.env
     (@locate Reference.env (Reference.atLoop Reference.blackWhite Reference.whiteDot)) = true
  /\ candidateRegion
       (@locate Reference.env (Reference.atLoop Reference.blackWhite Reference.whiteDot))
     = Reference.whiteDot
  /\ ocrImages
       (snd (flowState
               (@match_text_body Reference.env "A"
                  (false, 0%nat, Reference.atLoop Reference.blackWhite Reference.whiteDot))))
     = [toPix Reference.blackWhite]
  /\ toPix Reference.blackWhite <> toPix Reference.whiteDot.
Proof.
  split; [vm_compute; reflexivity|].
  split; [vm_compute; reflexivity|].
  split; [vm_compute; reflexivity|].
  vm_compute. discriminate.
Qed.

Section Loops.

Context {collaborators : Collaborators}.

(** *** The visual loop *)

Lemma threshold_loop_run (t : Z) (n : nat) :
  forall (fuel : nat) (isFound v : bool) (d : Detector.t),
  (forall i, (i < n)%nat ->
     match_threshold_body t (isFound, locateN i d) = Continue (isFound, locateN (S i) d)) ->
  match_threshold_body t (isFound, locateN n d) = Break (v, locateN (S n) d) ->
  (n < fuel)%nat ->
  while_true fuel (match_threshold_body t) (isFound, d) = Some (Break (v, locateN (S n) d)).
Proof.
  induction n as [|n IH]; intros fuel isFound v d Hskip Hexit Hfuel.
  - destruct fuel as [|fuel]; [lia|].
    now apply while_true_break.
  - destruct fuel as [|fuel]; [lia|].
    rewrite (while_true_continue _ fuel (isFound, d) (isFound, locate d)).
    + rewrite <- locateN_shift. apply IH.
      * intros i Hi. rewrite !locateN_shift. apply Hskip. lia.
      * rewrite !locateN_shift. exact Hexit.
      * lia.
    + apply (Hskip 0%nat). lia.
Qed.

Lemma threshold_body_outOfBounds (t : Z) (isFound : bool) (d : Detector.t) :
  candidateInBounds (locate d) = false ->
  match_threshold_body t (isFound, d) = Continue (isFound, locate d).
Proof. intro H. rewrite threshold_body_cases, H. reflexivity. Qed.

Lemma threshold_body_belowFloor (t : Z) (isFound : bool) (d : Detector.t) :
  candidateInBounds (locate d) = true ->
  isResultAboveThreshold (Detector.matchingResults (locate d)) t = false ->
  match_threshold_body t (isFound, d) = Break (false, locate d).
Proof. intros H1 H2. rewrite threshold_body_cases, H1, H2. reflexivity. Qed.

Lemma threshold_body_accepted (t : Z) (isFound : bool) (d : Detector.t) :
  candidateInBounds (locate d) = true ->
  isResultAboveThreshold (Detector.matchingResults (locate d)) t = true ->
  Qltb (candidateColorDiff (locate d)) (inject_Z t) = true ->
  match_threshold_body t (isFound, d) = Break (true, locate d).
Proof. intros H1 H2 H3. rewrite threshold_body_cases, H1, H2, H3. reflexivity. Qed.

Lemma threshold_body_colourRejected (t : Z) (isFound : bool) (d : Detector.t) :
  candidateInBounds (locate d) = true ->
  isResultAboveThreshold (Detector.matchingResults (locate d)) t = true ->
  Qltb (candidateColorDiff (locate d)) (inject_Z t) = false ->
  match_threshold_body t (isFound, d) = Continue (isFound, locate d).
Proof. intros H1 H2 H3. rewrite threshold_body_cases, H1, H2, H3. reflexivity. Qed.

(** *** The text loop *)

Lemma text_body_outOfBounds (id : string) (isFound : bool) (rc : nat) (d : Detector.t) :
  candidateInBounds (locate d) = false ->
  match_text_body id (isFound, rc, d) = Continue (isFound, rc, locate d).
Proof. intro H. rewrite text_body_cases, H. reflexivity. Qed.

Lemma text_body_found (id : string) (isFound : bool) (rc : nat) (d : Detector.t) :
  candidateInBounds (locate d) = true ->
  find (extractedText d) id <> None ->
  match_text_body id (isFound, rc, d)
  = Break (true, rc,
           Detector.log
             (CallSetImage (toPix (ScreenImage.fullSizeColor (Detector.screenImage d))))
             (locate d)).
Proof.
  intros H1 H2. rewrite text_body_cases, H1. cbn [negb]. cbv zeta.
  destruct (find (extractedText d) id); [reflexivity | congruence].
Qed.

Lemma text_body_missed (id : string) (isFound : bool) (rc : nat) (d : Detector.t) :
  candidateInBounds (locate d) = true ->
  find (extractedText d) id = None ->
  match_text_body id (isFound, rc, d)
  = let d' := Detector.log
                (CallSetImage (toPix (ScreenImage.fullSizeColor (Detector.screenImage d))))
                (locate d) in
    if (100 <=? S rc)%nat then Return (isFound, S rc, clearResults d')
    else Continue (isFound, S rc, d').
Proof.
  intros H1 H2. rewrite text_body_cases, H1, H2. reflexivity.
Qed.

Lemma text_loop_found (id : string) (n : nat) :
  forall (fuel : nat) (isFound : bool) (rc : nat) (d : Detector.t),
  find (extractedText d) id <> None ->
  (forall i, (i < n)%nat -> candidateInBounds (locateN (S i) d) = false) ->
  candidateInBounds (locateN (S n) d) = true ->
  (n < fuel)%nat ->
  while_true fuel (match_text_body id) (isFound, rc, d)
  = Some (Break (true, rc,
                 Detector.log
                   (CallSetImage (toPix (ScreenImage.fullSizeColor (Detector.screenImage d))))
                   (locateN (S n) d))).
Proof.
  induction n as [|n IH]; intros fuel isFound rc d Htext Hskip Hin Hfuel.
  - destruct fuel as [|fuel]; [lia|].
    apply while_true_break. now apply text_body_found.
  - destruct fuel as [|fuel]; [lia|].
    rewrite (while_true_continue _ fuel (isFound, rc, d) (isFound, rc, locate d)).
    + rewrite <- locateN_shift.
      change (Detector.screenImage d) with (Detector.screenImage (locate d)).
      apply IH.
      * now rewrite extractedText_locate.
      * intros i Hi. rewrite locateN_shift. apply Hskip. lia.
      * rewrite locateN_shift. exact Hin.
      * lia.
    + apply text_body_outOfBounds. apply (Hskip 0%nat). lia.
Qed.

Lemma text_loop_cap (id : string) (n : nat) :
  forall (fuel : nat) (isFound : bool) (rc : nat) (d : Detector.t),
  find (extractedText d) id = None ->
  (rc < 100)%nat ->
  (inBoundsCount d n + rc = 100)%nat ->
  candidateInBounds (locateN n d) = true ->
  (n <= fuel)%nat ->
  exists d',
    while_true fuel (match_text_body id) (isFound, rc, d) = Some (Return (isFound, 100%nat, d'))
    /\ sameCandidate (locateN n d) d'
    /\ Detector.detectionResult d' = notFound
    /\ ocrAttempts d' = (ocrAttempts d + (100 - rc))%nat
    /\ resultWrites d' = S (resultWrites d)
    /\ extractions d' = (extractions d + n)%nat
    /\ correlationRuns d' = correlationRuns d
    /\ templateReads d' = templateReads d.
Proof.
  induction n as [|n IH]; intros fuel isFound rc d Htext Hrc Hcount Hin Hfuel.
  - cbn in Hcount. lia.
  - destruct fuel as [|fuel]; [lia|].
    rewrite inBoundsCount_head in Hcount.
    destruct (candidateInBounds (locate d)) eqn:Hfirst.
    + (* the candidate is read *)
      set (d2 := Detector.log
                   (CallSetImage (toPix (ScreenImage.fullSizeColor (Detector.screenImage d))))
                   (locate d)).
      assert (Hsame : sameCandidate (locate d) d2) by apply sameCandidate_log.
      pose proof (text_body_missed id isFound rc d Hfirst Htext) as Hbody.
      cbv zeta in Hbody. fold d2 in Hbody.
      destruct (100 <=? S rc)%nat eqn:Hcap.
      * (* the cap is reached *)
        apply Nat.leb_le in Hcap.
        assert (n = 0%nat) as ->.
        { destruct n as [|n]; [reflexivity|].
          rewrite <- locateN_shift in Hin.
          pose proof (inBoundsCount_last n (locate d) Hin). lia. }
        assert (E : S rc = 100%nat) by lia.
        rewrite E in Hbody.
        exists (clearResults d2).
        split; [now apply while_true_return|].
        split.
        { apply sameCandidate_trans with (b := d2); [exact Hsame|].
          apply sameCandidate_clearResults. }
        split; [reflexivity|].
        unfold d2. repeat split; count_calls; rewrite ?countCalls_locate; count_calls.
      * (* the loop goes on *)
        apply Nat.leb_gt in Hcap.
        destruct (IH fuel isFound (S rc) d2) as (d' & Hrun & Hs & Hres & Hocr & Hw & Hex & Hcor & Htr).
        -- rewrite (extractedText_same _ _ Hsame), extractedText_locate. exact Htext.
        -- lia.
        -- rewrite (inBoundsCount_same n _ _ Hsame). lia.
        -- rewrite (candidateInBounds_same _ _ (sameCandidate_locateN n _ _ Hsame)).
           rewrite locateN_shift. exact Hin.
        -- lia.
        -- exists d'.
           split; [rewrite (while_true_continue _ fuel _ _ Hbody); exact Hrun|].
           split.
           { apply sameCandidate_trans with (b := locateN n d2); [|exact Hs].
             rewrite <- locateN_shift. now apply sameCandidate_locateN. }
           split; [exact Hres|].
           rewrite Hocr, Hw, Hex, Hcor, Htr.
           unfold d2. repeat split; count_calls; rewrite ?countCalls_locate; count_calls.
    + (* the candidate is out of bounds *)
      destruct (IH fuel isFound rc (locate d)) as (d' & Hrun & Hs & Hres & Hocr & Hw & Hex & Hcor & Htr).
      * now rewrite extractedText_locate.
      * exact Hrc.
      * lia.
      * rewrite locateN_shift. exact Hin.
      * lia.
      * exists d'.
        split.
        { rewrite (while_true_continue _ fuel _ _ (text_body_outOfBounds id isFound rc d Hfirst)).
          exact Hrun. }
        split; [rewrite <- locateN_shift; exact Hs|].
        split; [exact Hres|].
        rewrite Hocr, Hw, Hex, Hcor, Htr.
        repeat split; count_calls; rewrite ?countCalls_locate; count_calls.
Qed.

(** A text search that leaves its loop without a match has read the screen
    exactly as often as the cap allows. *)
Lemma text_loop_never_fewer (id : string) (fuel : nat) :
  forall (isFound : bool) (rc : nat) (d : Detector.t) (out : Flow (bool * nat * Detector.t)),
  find (extractedText d) id = None ->
  (rc < 100)%nat ->
  while_true fuel (match_text_body id) (isFound, rc, d) = Some out ->
  exists d',
    out = Return (isFound, 100%nat, d')
    /\ Detector.detectionResult d' = notFound
    /\ ocrAttempts d' = (ocrAttempts d + (100 - rc))%nat.
Proof.
  induction fuel as [|fuel IH]; intros isFound rc d out Htext Hrc Hrun.
  - discriminate.
  - cbn [while_true] in Hrun.
    destruct (candidateInBounds (locate d)) eqn:Hfirst.
    + rewrite (text_body_missed id isFound rc d Hfirst Htext) in Hrun. cbv zeta in Hrun.
      set (d2 := Detector.log
                   (CallSetImage (toPix (ScreenImage.fullSizeColor (Detector.screenImage d))))
                   (locate d)) in *.
      destruct (100 <=? S rc)%nat eqn:Hcap.
      * apply Nat.leb_le in Hcap. assert (S rc = 100%nat) as E by lia.
        inversion Hrun; subst out. exists (clearResults d2).
        rewrite E. split; [reflexivity|]. split; [reflexivity|].
        unfold d2. count_calls; rewrite ?countCalls_locate; count_calls.
      * apply Nat.leb_gt in Hcap.
        destruct (IH isFound (S rc) d2 out) as (d' & Hout & Hres & Hocr).
        -- exact Htext.
        -- lia.
        -- exact Hrun.
        -- exists d'. split; [exact Hout|]. split; [exact Hres|].
           rewrite Hocr. unfold d2. count_calls; rewrite ?countCalls_locate; count_calls.
    + rewrite (text_body_outOfBounds id isFound rc d Hfirst) in Hrun.
      destruct (IH isFound rc (locate d) out) as (d' & Hout & Hres & Hocr).
      * exact Htext.
      * exact Hrc.
      * exact Hrun.
      * exists d'. split; [exact Hout|]. split; [exact Hres|].
        rewrite Hocr. count_calls; rewrite ?countCalls_locate; count_calls.
Qed.

(** When no extracted candidate is ever in bounds, neither loop is left. *)
Lemma text_loop_stuck (id : string) (fuel : nat) :
  forall (isFound : bool) (rc : nat) (d : Detector.t),
  (forall k, candidateInBounds (locateN (S k) d) = false) ->
  while_true fuel (match_text_body id) (isFound, rc, d) = None.
Proof.
  induction fuel as [|fuel IH]; intros isFound rc d Hout; [reflexivity|].
  rewrite (while_true_continue _ fuel _ _ (text_body_outOfBounds id isFound rc d (Hout 0%nat))).
  apply IH. intro k. rewrite locateN_shift. apply Hout.
Qed.

End Loops.

Section Calls.

Context {collaborators : Collaborators}.

Lemma countCalls_locateN (p : Call -> bool) (n : nat) (d : Detector.t) :
  countCalls p (locateN n d)
  = ((if p CallLocateNextMinMax then n else 0) + countCalls p d)%nat.
Proof.
  induction n as [|n IH]; cbn [locateN].
  - destruct (p CallLocateNextMinMax); reflexivity.
  - rewrite countCalls_locate, IH. destruct (p CallLocateNextMinMax); lia.
Qed.

Lemma countCalls_prepared (p : Call -> bool) (b : Bitmap) (d : Detector.t) :
  countCalls p (prepared b d)
  = ((if p CallMatchTemplate then 1 else 0)
     + ((if p (CallProcessBitmap b) then 1 else 0) + countCalls p d))%nat.
Proof.
  unfold prepared, correlate, cropScreen, readCondition. cbv zeta.
  rewrite countCalls_log.
  change (countCalls p (Detector.setMatchingResults ?m ?x)) with (countCalls p x).
  change (countCalls p (Detector.setScreenImage ?m ?x)) with (countCalls p x).
  rewrite countCalls_log. reflexivity.
Qed.

Lemma countCalls_reportResults (p : Call -> bool) (f : bool) (d : Detector.t) :
  countCalls p (reportResults f d)
  = ((if p (CallSetResults (Detector.detectionResult (reportResults f d))) then 1 else 0)
     + countCalls p d)%nat.
Proof. unfold reportResults. cbv zeta. now rewrite countCalls_setResults. Qed.

Lemma detectionRoi_prepared (b : Bitmap) (d : Detector.t) :
  Detector.detectionRoi (prepared b d) = Detector.detectionRoi d.
Proof. reflexivity. Qed.

(** The outcome that [setResults] writes at the end of either [match]. *)
Lemma reportResults_outcome (f : bool) (d : Detector.t) :
  Detector.detectionResult (reportResults f d)
  = DetectionResult.make f
      (int_add (Rect.x (ScalableRoi.fullSize (Detector.detectionRoi d)))
               (fullSizeCenterX (MatchingResults.roi (Detector.matchingResults d))))
      (int_add (Rect.y (ScalableRoi.fullSize (Detector.detectionRoi d)))
               (fullSizeCenterY (MatchingResults.roi (Detector.matchingResults d))))
      (MatchingResults.maxVal (Detector.matchingResults d)).
Proof. reflexivity. Qed.


End Calls.

Ltac count_all :=
  unfold ocrAttempts, resultWrites, extractions, correlationRuns, templateReads in *;
  rewrite ?countCalls_reportResults, ?countCalls_clearResults, ?countCalls_log,
          ?countCalls_locateN, ?countCalls_prepared;
  cbn [isSetImage isResultWrite isLocate isMatchTemplate isProcessBitmap];
  try lia.

(** *** Whole calls *)

Section WholeCalls.

Context {collaborators : Collaborators}.

Lemma match_threshold_exit (fuel n : nat) (b : Bitmap) (t : Z) (v : bool) (d : Detector.t) :
  roiInvalid d = false ->
  templateFits b d = true ->
  (forall i, (i < n)%nat ->
     match_threshold_body t (false, locateN i (prepared b d))
     = Continue (false, locateN (S i) (prepared b d))) ->
  match_threshold_body t (false, locateN n (prepared b d))
  = Break (v, locateN (S n) (prepared b d)) ->
  (n < fuel)%nat ->
  match_threshold fuel b t d = Some (reportResults v (locateN (S n) (prepared b d))).
Proof.
  intros H1 H2 Hskip Hexit Hfuel.
  rewrite (match_threshold_loop fuel b t d H1 H2).
  now rewrite (threshold_loop_run t n fuel false v (prepared b d) Hskip Hexit Hfuel).
Qed.

Lemma match_text_found (fuel n : nat) (b : Bitmap) (id : string) (d : Detector.t) :
  roiInvalid d = false ->
  templateFits b d = true ->
  find (extractedText (prepared b d)) id <> None ->
  (forall i, (i < n)%nat -> candidateInBounds (locateN (S i) (prepared b d)) = false) ->
  candidateInBounds (locateN (S n) (prepared b d)) = true ->
  (n < fuel)%nat ->
  match_text fuel b id d
  = Some (reportResults true
            (Detector.log
               (CallSetImage
                  (toPix (ScreenImage.fullSizeColor (Detector.screenImage (prepared b d)))))
               (locateN (S n) (prepared b d)))).
Proof.
  intros H1 H2 Htext Hskip Hin Hfuel.
  rewrite (match_text_loop fuel b id d H1 H2).
  now rewrite (text_loop_found id n fuel false 0%nat (prepared b d) Htext Hskip Hin Hfuel).
Qed.

Lemma match_text_cap (fuel n : nat) (b : Bitmap) (id : string) (d : Detector.t) :
  roiInvalid d = false ->
  templateFits b d = true ->
  find (extractedText (prepared b d)) id = None ->
  inBoundsCount (prepared b d) n = 100%nat ->
  candidateInBounds (locateN n (prepared b d)) = true ->
  (n <= fuel)%nat ->
  exists d',
    match_text fuel b id d = Some d'
    /\ Detector.detectionResult d' = notFound
    /\ ocrAttempts d' = (ocrAttempts d + 100)%nat
    /\ resultWrites d' = S (resultWrites d)
    /\ extractions d' = (extractions d + n)%nat
    /\ correlationRuns d' = S (correlationRuns d).
Proof.
  intros H1 H2 Htext Hcount Hin Hfuel.
  destruct (text_loop_cap id n fuel false 0%nat (prepared b d))
    as (d' & Hrun & Hs & Hres & Hocr & Hw & Hex & Hcor & Htr);
    try assumption; try lia.
  exists d'. rewrite (match_text_loop fuel b id d H1 H2), Hrun.
  split; [reflexivity|]. split; [exact Hres|].
  rewrite Hocr, Hw, Hex, Hcor.
  repeat split; count_all.
Qed.

Lemma match_text_never_fewer (fuel : nat) (b : Bitmap) (id : string) (d d' : Detector.t) :
  roiInvalid d = false ->
  templateFits b d = true ->
  find (extractedText (prepared b d)) id = None ->
  match_text fuel b id d = Some d' ->
  Detector.detectionResult d' = notFound /\ ocrAttempts d' = (ocrAttempts d + 100)%nat.
Proof.
  intros H1 H2 Htext Hrun.
  rewrite (match_text_loop fuel b id d H1 H2) in Hrun.
  destruct (while_true fuel (match_text_body id) (false, 0%nat, prepared b d)) as [out|] eqn:W;
    [|discriminate].
  destruct (text_loop_never_fewer id fuel false 0%nat (prepared b d) out Htext) as (d2 & Hout & Hres & Hocr);
    [lia | exact W |].
  subst out. inversion Hrun; subst d'.
  split; [exact Hres|]. rewrite Hocr. count_all.
Qed.

(** *** Runs that differ in their scores only *)

Section Scores.

Variable R : MatchingResults.t -> MatchingResults.t -> Prop.
Hypothesis R_roi : forall a b, R a b -> MatchingResults.roi a = MatchingResults.roi b.
Hypothesis R_next :
  forall a b templ ratio,
    R a b -> R (locateNextMinMax a templ ratio) (locateNextMinMax b templ ratio).

Lemma sameButScores_locate (d d' : Detector.t) :
  sameButScores R d d' -> sameButScores R (locate d) (locate d').
Proof.
  intros (H1 & H2 & H3 & H4 & H5 & H6 & H7).
  unfold sameButScores, locate, nextCandidate. cbn.
  rewrite H1, H2, H3, H4, H5, H6. repeat split.
  apply R_next. exact H7.
Qed.

Lemma sameButScores_inBounds (d d' : Detector.t) :
  sameButScores R d d' -> candidateInBounds d' = candidateInBounds d.
Proof.
  intros (H1 & H2 & H3 & H4 & H5 & H6 & H7).
  unfold candidateInBounds. now rewrite H2, (R_roi _ _ H7).
Qed.

Lemma sameButScores_logged (c : Call) (d d' : Detector.t) :
  sameButScores R d d' -> sameButScores R (Detector.log c d) (Detector.log c d').
Proof.
  intros (H1 & H2 & H3 & H4 & H5 & H6 & H7).
  unfold sameButScores. cbn. rewrite H6. repeat split; assumption.
Qed.

Lemma sameButScores_cleared (d d' : Detector.t) :
  sameButScores R d d' -> sameButScores R (clearResults d) (clearResults d').
Proof.
  intros (H1 & H2 & H3 & H4 & H5 & H6 & H7).
  unfold sameButScores. cbn. rewrite H6. repeat split; assumption.
Qed.

Lemma text_loop_lockstep (id : string) (fuel : nat) :
  forall (isFound : bool) (rc : nat) (d d' : Detector.t),
  sameButScores R d d' ->
  inLockstep R (while_true fuel (match_text_body id) (isFound, rc, d))
               (while_true fuel (match_text_body id) (isFound, rc, d')).
Proof.
  induction fuel as [|fuel IH]; intros isFound rc d d' Hsim; [exact I|].
  pose proof (sameButScores_locate d d' Hsim) as Hloc.
  pose proof (sameButScores_inBounds _ _ Hloc) as Hin.
  assert (Himg : Detector.screenImage d' = Detector.screenImage d) by apply Hsim.
  cbn [while_true]. rewrite !text_body_cases, Hin.
  unfold extractedText. rewrite Himg.
  destruct (candidateInBounds (locate d)); cbn [negb].
  - cbv zeta.
    destruct (find _ id).
    + cbn. repeat split; try apply (sameButScores_logged _ _ _ Hloc).
    + destruct (100 <=? S rc)%nat.
      * cbn. repeat split;
          try apply (sameButScores_cleared _ _ (sameButScores_logged _ _ _ Hloc)).
      * apply IH. now apply sameButScores_logged.
  - apply IH. exact Hloc.
Qed.

End Scores.

End WholeCalls.

Section Prefixes.

Context {collaborators : Collaborators}.

(** The visual loop passes over a candidate that is out of bounds, and over
    one that clears the floor while the colour test fails. *)
Lemma threshold_loop_passes (t : Z) (n : nat) :
  forall (fuel : nat) (isFound : bool) (d : Detector.t),
  (forall i, (i < n)%nat ->
     candidateInBounds (locateN (S i) d) = false
     \/ (isResultAboveThreshold (Detector.matchingResults (locateN (S i) d)) t = true
         /\ Qltb (candidateColorDiff d) (inject_Z t) = false)) ->
  (n <= fuel)%nat ->
  while_true fuel (match_threshold_body t) (isFound, d)
  = while_true (fuel - n) (match_threshold_body t) (isFound, locateN n d).
Proof.
  induction n as [|n IH]; intros fuel isFound d Hpass Hfuel.
  - now rewrite Nat.sub_0_r.
  - destruct fuel as [|fuel]; [lia|].
    assert (Hbody : match_threshold_body t (isFound, d) = Continue (isFound, locate d)).
    { destruct (Hpass 0%nat) as [Hout | [Habove Hcol]]; [lia | |].
      - now apply threshold_body_outOfBounds.
      - destruct (candidateInBounds (locate d)) eqn:Hin.
        + now apply threshold_body_colourRejected.
        + now apply threshold_body_outOfBounds. }
    rewrite (while_true_continue _ fuel _ _ Hbody).
    rewrite <- locateN_shift. change (S fuel - S n)%nat with (fuel - n)%nat.
    apply IH; [|lia].
    intros i Hi. rewrite locateN_shift, candidateColorDiff_locate. apply Hpass. lia.
Qed.

(** While fewer than a hundred in-bounds candidates have been extracted, a
    text search that does not see its target has not left the loop. *)
Lemma text_loop_not_yet (id : string) (fuel : nat) :
  forall (isFound : bool) (rc : nat) (d : Detector.t),
  find (extractedText d) id = None ->
  (inBoundsCount d fuel + rc < 100)%nat ->
  while_true fuel (match_text_body id) (isFound, rc, d) = None.
Proof.
  induction fuel as [|fuel IH]; intros isFound rc d Htext Hcount; [reflexivity|].
  rewrite inBoundsCount_head in Hcount.
  destruct (candidateInBounds (locate d)) eqn:Hin.
  - pose proof (text_body_missed id isFound rc d Hin Htext) as Hbody. cbv zeta in Hbody.
    set (d2 := Detector.log
                 (CallSetImage (toPix (ScreenImage.fullSizeColor (Detector.screenImage d))))
                 (locate d)) in *.
    assert (Hsame : sameCandidate (locate d) d2) by apply sameCandidate_log.
    destruct (100 <=? S rc)%nat eqn:Hcap; [apply Nat.leb_le in Hcap; lia|].
    rewrite (while_true_continue _ fuel _ _ Hbody).
    apply IH.
    + rewrite (extractedText_same _ _ Hsame), extractedText_locate. exact Htext.
    + rewrite (inBoundsCount_same fuel _ _ Hsame). lia.
  - rewrite (while_true_continue _ fuel _ _ (text_body_outOfBounds id isFound rc d Hin)).
    apply IH; [now rewrite extractedText_locate | lia].
Qed.

Lemma match_text_not_yet (fuel : nat) (b : Bitmap) (id : string) (d : Detector.t) :
  roiInvalid d = false ->
  templateFits b d = true ->
  find (extractedText (prepared b d)) id = None ->
  (inBoundsCount (prepared b d) fuel < 100)%nat ->
  match_text fuel b id d = None.
Proof.
  intros H1 H2 Htext Hcount.
  rewrite (match_text_loop fuel b id d H1 H2).
  rewrite (text_loop_not_yet id fuel false 0%nat (prepared b d) Htext); [reflexivity | lia].
Qed.

End Prefixes.

(** ** Further properties *)

(** *** The acceptance floor *)

Lemma floor_antitone (a b : Z) :
  a <= b -> (inject_Z a / 100 <= inject_Z b / 100)%Q.
Proof.
  intro H. unfold Qdiv. apply Qmult_le_compat_r; [|discriminate].
  rewrite <- Zle_Qle. exact H.
Qed.

(** X1: a candidate that clears the floor of a threshold clears the floor of
    every larger threshold, and so does every candidate with a score at
    least as large. *)
Theorem isResultAboveThreshold_monotone (m m' : MatchingResults.t) (t t' : Z) :
  100 - 2 ^ 31 < t -> t <= t' -> t' < 2 ^ 31 ->
  (MatchingResults.maxVal m <= MatchingResults.maxVal m')%Q ->
  isResultAboveThreshold m t = true ->
  isResultAboveThreshold m' t' = true.
Proof.
  intros H1 H2 H3 Hm. unfold isResultAboveThreshold, int_sub.
  rewrite !wrap32_small by lia. rewrite !Qltb_lt. intro H.
  apply Qle_lt_trans with (y := (inject_Z (100 - t) / 100)%Q).
  - apply floor_antitone. lia.
  - apply Qlt_le_trans with (y := MatchingResults.maxVal m); assumption.
Qed.

(** X2: for scores in the range of a normalised correlation, and as long as
    100 - threshold does not overflow an int, a threshold of 0 or less is
    never cleared and a threshold above 200 always is. *)
Theorem isResultAboveThreshold_outside_0_100 (m : MatchingResults.t) (t : Z) :
  100 - 2 ^ 31 < t -> t < 2 ^ 31 ->
  (-1 <= MatchingResults.maxVal m <= 1)%Q ->
  (t <= 0 -> isResultAboveThreshold m t = false)
  /\ (200 < t -> isResultAboveThreshold m t = true).
Proof.
  intros H1 H2 [Hlo Hhi]. unfold isResultAboveThreshold, int_sub.
  rewrite wrap32_small by lia. split; intro Ht.
  - apply Qltb_ge.
    apply Qle_trans with (y := 1%Q); [exact Hhi|].
    apply Qle_trans with (y := (inject_Z 100 / 100)%Q); [vm_compute; discriminate|].
    apply floor_antitone. lia.
  - apply Qltb_lt.
    apply Qlt_le_trans with (y := (-1)%Q); [|exact Hlo].
    apply Qle_lt_trans with (y := (inject_Z (-101) / 100)%Q).
    + apply floor_antitone. lia.
    + reflexivity.
Qed.

(** *** The colour distance *)

(** X3: the colour distance is symmetric: the two images can be swapped
    without changing the value. *)
Theorem getColorDiff_symmetric (X Y : Mat.t) :
  getColorDiff X Y = getColorDiff Y X.
Proof.
  unfold getColorDiff. cbn [seq fold_left].
  rewrite (Qabs_Qminus (val (mean X) 0)), (Qabs_Qminus (val (mean X) 1)),
          (Qabs_Qminus (val (mean X) 2)).
  reflexivity.
Qed.

Lemma channelSum_Permutation (i : nat) (l l' : list Pixel) :
  Permutation l l' -> channelSum i l = channelSum i l'.
Proof.
  intro H. induction H; simpl; lia.
Qed.

(** The distance reads an image through its number of pixels and the sums of
    its first three channels only. *)
Lemma getColorDiff_ext (X X' Y : Mat.t) :
  Mat.total X = Mat.total X' ->
  (forall i, (i < 3)%nat -> channelSum i (concat X) = channelSum i (concat X')) ->
  getColorDiff X Y = getColorDiff X' Y.
Proof.
  intros Ht Hs. unfold getColorDiff, mean. cbn [seq fold_left val].
  rewrite Ht, (Hs 0%nat), (Hs 1%nat), (Hs 2%nat) by lia. reflexivity.
Qed.

(** X4: the colour distance does not see where the pixels are.  Two images
    made of the same pixels, in any order and any shape, are at distance 0
    from each other and at the same distance from every template. *)
Theorem getColorDiff_blind_to_layout (X X' Y : Mat.t) :
  Permutation (concat X) (concat X') ->
  getColorDiff X Y = getColorDiff X' Y
  /\ (getColorDiff X X' == 0)%Q.
Proof.
  intro H.
  assert (E : forall T, getColorDiff X T = getColorDiff X' T).
  { intro T. apply getColorDiff_ext.
    - unfold Mat.total. now apply Permutation_length.
    - intros i _. now apply channelSum_Permutation. }
  split; [apply E|].
  rewrite E. apply getColorDiff_same.
Qed.

Lemma channelSum_firstn3 (i : nat) (l : list Pixel) :
  (i < 3)%nat -> channelSum i (map (firstn 3) l) = channelSum i l.
Proof.
  intro Hi. induction l as [|p l IH]; [reflexivity|].
  cbn [map]. unfold channelSum in *. cbn [fold_right]. rewrite IH.
  unfold channel. rewrite nth_firstn.
  destruct (Nat.ltb_spec i 3); [reflexivity | lia].
Qed.

(** X5: only the first three channels of a pixel count: an image and the
    same image without its alpha channel are at the same distance from
    every template. *)
Theorem getColorDiff_ignores_alpha (X Y : Mat.t) :
  getColorDiff (dropAlpha X) Y = getColorDiff X Y
  /\ getColorDiff Y (dropAlpha X) = getColorDiff Y X.
Proof.
  assert (Ht : Mat.total (dropAlpha X) = Mat.total X).
  { unfold Mat.total, dropAlpha. rewrite <- concat_map. apply length_map. }
  assert (Hs : forall i, (i < 3)%nat ->
             channelSum i (concat (dropAlpha X)) = channelSum i (concat X)).
  { intros i Hi. unfold dropAlpha. rewrite <- concat_map. now apply channelSum_firstn3. }
  split.
  - now apply getColorDiff_ext.
  - unfold getColorDiff, mean. cbn [seq fold_left val].
    rewrite Ht, (Hs 0%nat), (Hs 1%nat), (Hs 2%nat) by lia. reflexivity.
Qed.

(** *** What a search loop has done when it is left *)

Section Returns.

Context {collaborators : Collaborators}.

Lemma keepsSetup_refl (d : Detector.t) : keepsSetup d d.
Proof. repeat split. Qed.

Lemma keepsSetup_trans (a b c : Detector.t) :
  keepsSetup a b -> keepsSetup b c -> keepsSetup a c.
Proof.
  unfold keepsSetup. intros (H1 & H2 & H3) (K1 & K2 & K3). repeat split; congruence.
Qed.

Lemma keepsSetup_locateN (n : nat) (d : Detector.t) : keepsSetup d (locateN n d).
Proof.
  induction n as [|n IH]; [apply keepsSetup_refl|].
  apply keepsSetup_trans with (b := locateN n d); [exact IH | repeat split].
Qed.

Lemma keepsSetup_prepared (b : Bitmap) (d : Detector.t) : keepsSetup d (prepared b d).
Proof. repeat split. Qed.

Lemma ocrImages_locateN (n : nat) (d : Detector.t) : ocrImages (locateN n d) = ocrImages d.
Proof. induction n as [|n IH]; [reflexivity | exact IH]. Qed.

(** The visual loop is left at an in-bounds candidate, with the flag that
    says whether its score clears the floor; every candidate before it was
    out of bounds or failed the colour test. *)
Lemma threshold_loop_returns (t : Z) (fuel : nat) :
  forall (isFound : bool) (d : Detector.t) (out : Flow (bool * Detector.t)),
  while_true fuel (match_threshold_body t) (isFound, d) = Some out ->
  exists k,
    (k < fuel)%nat
    /\ out = Break (isResultAboveThreshold (Detector.matchingResults (locateN (S k) d)) t,
                    locateN (S k) d)
    /\ candidateInBounds (locateN (S k) d) = true
    /\ (isResultAboveThreshold (Detector.matchingResults (locateN (S k) d)) t = true ->
        Qltb (candidateColorDiff d) (inject_Z t) = true)
    /\ (forall i, (i < k)%nat ->
          candidateInBounds (locateN (S i) d) = false
          \/ (isResultAboveThreshold (Detector.matchingResults (locateN (S i) d)) t = true
              /\ Qltb (candidateColorDiff d) (inject_Z t) = false)).
Proof.
  induction fuel as [|fuel IH]; intros isFound d out Hrun; [discriminate|].
  cbn [while_true] in Hrun. rewrite threshold_body_cases in Hrun.
  assert (Hnext :
    while_true fuel (match_threshold_body t) (isFound, locate d) = Some out ->
    (candidateInBounds (locate d) = false
     \/ (isResultAboveThreshold (Detector.matchingResults (locate d)) t = true
         /\ Qltb (candidateColorDiff d) (inject_Z t) = false)) ->
    exists k,
      (k < S fuel)%nat
      /\ out = Break (isResultAboveThreshold (Detector.matchingResults (locateN (S k) d)) t,
                      locateN (S k) d)
      /\ candidateInBounds (locateN (S k) d) = true
      /\ (isResultAboveThreshold (Detector.matchingResults (locateN (S k) d)) t = true ->
          Qltb (candidateColorDiff d) (inject_Z t) = true)
      /\ (forall i, (i < k)%nat ->
            candidateInBounds (locateN (S i) d) = false
            \/ (isResultAboveThreshold (Detector.matchingResults (locateN (S i) d)) t = true
                /\ Qltb (candidateColorDiff d) (inject_Z t) = false))).
  { intros Hrest Hfirst.
    destruct (IH isFound (locate d) out Hrest) as (k & Hk & Hout & Hin & Hcol & Hbefore).
    rewrite locateN_shift in Hout, Hin, Hcol.
    rewrite candidateColorDiff_locate in Hcol.
    exists (S k). split; [lia|]. split; [exact Hout|]. split; [exact Hin|].
    split; [exact Hcol|].
    intros i Hi. destruct i as [|i]; [exact Hfirst|].
    specialize (Hbefore i). rewrite locateN_shift, candidateColorDiff_locate in Hbefore.
    apply Hbefore. lia. }
  destruct (candidateInBounds (locate d)) eqn:Hin; cbn [negb] in Hrun.
  - destruct (isResultAboveThreshold (Detector.matchingResults (locate d)) t) eqn:Habove;
      cbn [negb] in Hrun.
    + rewrite candidateColorDiff_locate in Hrun.
      destruct (Qltb (candidateColorDiff d) (inject_Z t)) eqn:Hcol.
      * inversion Hrun; subst out. exists 0%nat.
        split; [lia|]. cbn [locateN]. rewrite Habove.
        split; [reflexivity|]. split; [exact Hin|]. split; [reflexivity|].
        intros i Hi. lia.
      * apply Hnext; [exact Hrun|]. right. split; reflexivity.
    + inversion Hrun; subst out. exists 0%nat.
      split; [lia|]. cbn [locateN]. rewrite Habove.
      split; [reflexivity|]. split; [exact Hin|]. split; [discriminate|].
      intros i Hi. lia.
  - apply Hnext; [exact Hrun|]. left. reflexivity.
Qed.

Lemma match_threshold_returns (fuel : nat) (b : Bitmap) (t : Z) (d d' : Detector.t) :
  roiInvalid d = false ->
  templateFits b d = true ->
  match_threshold fuel b t d = Some d' ->
  exists k,
    (k < fuel)%nat
    /\ d' = reportResults
              (isResultAboveThreshold
                 (Detector.matchingResults (locateN (S k) (prepared b d))) t)
              (locateN (S k) (prepared b d))
    /\ candidateInBounds (locateN (S k) (prepared b d)) = true
    /\ (isResultAboveThreshold
          (Detector.matchingResults (locateN (S k) (prepared b d))) t = true ->
        Qltb (candidateColorDiff (prepared b d)) (inject_Z t) = true).
Proof.
  intros H1 H2 Hrun.
  rewrite (match_threshold_loop fuel b t d H1 H2) in Hrun.
  destruct (while_true fuel (match_threshold_body t) (false, prepared b d)) as [out|] eqn:W;
    [|discriminate].
  destruct (threshold_loop_returns t fuel false (prepared b d) out W)
    as (k & Hk & Hout & Hin & Hcol & _).
  subst out. inversion Hrun; subst d'.
  exists k. repeat split; assumption.
Qed.

(** X8: a visual search that passed both checks and returns has stopped at
    an in-bounds candidate whose score it reports.  For a threshold between
    0 and 100, found is true exactly when the reported confidence is
    strictly above (100 - threshold) / 100, and then the colour distance of
    the call is strictly below the threshold. *)
Theorem visual_outcome_sound
    (fuel : nat) (conditionBitmap : Bitmap) (threshold : Z) (d d' : Detector.t) :
  roiInvalid d = false ->
  templateFits conditionBitmap d = true ->
  0 <= threshold <= 100 ->
  match_threshold fuel conditionBitmap threshold d = Some d' ->
  (DetectionResult.found (Detector.detectionResult d') = true
   <-> (inject_Z (100 - threshold) / 100
        < DetectionResult.confidence (Detector.detectionResult d'))%Q)
  /\ (DetectionResult.found (Detector.detectionResult d') = true ->
      (candidateColorDiff (prepared conditionBitmap d) < inject_Z threshold)%Q)
  /\ exists k,
       (k < fuel)%nat
       /\ candidateInBounds (locateN (S k) (prepared conditionBitmap d)) = true
       /\ DetectionResult.confidence (Detector.detectionResult d')
          = MatchingResults.maxVal
              (Detector.matchingResults (locateN (S k) (prepared conditionBitmap d)))
       /\ extractions d' = (extractions d + S k)%nat.
Proof.
  intros H1 H2 Ht Hrun.
  destruct (match_threshold_returns fuel conditionBitmap threshold d d' H1 H2 Hrun)
    as (k & Hk & Hd' & Hin & Hcol).
  subst d'. rewrite reportResults_outcome.
  cbn [DetectionResult.found DetectionResult.confidence].
  split; [apply isResultAboveThreshold_floor; exact Ht|].
  split.
  - intro Hfound. apply Qltb_lt. now apply Hcol.
  - exists k. split; [exact Hk|]. split; [exact Hin|]. split; [reflexivity | count_all].
Qed.

(** X9: the colour distance of a visual search is the same for every
    candidate: when the cropped screen image is at a distance of the
    threshold or more from the template, no call reports found = true,
    whatever the correlation scores and the fuel. *)
Theorem visual_never_found_when_colour_off
    (fuel : nat) (conditionBitmap : Bitmap) (threshold : Z) (d d' : Detector.t) :
  (inject_Z threshold <= candidateColorDiff (prepared conditionBitmap d))%Q ->
  match_threshold fuel conditionBitmap threshold d = Some d' ->
  DetectionResult.found (Detector.detectionResult d') = false.
Proof.
  intros Hcol Hrun.
  destruct (roiInvalid d) eqn:H1.
  - rewrite (match_threshold_roiInvalid fuel conditionBitmap threshold d H1) in Hrun.
    inversion Hrun. reflexivity.
  - destruct (templateFits conditionBitmap d) eqn:H2.
    + destruct (match_threshold_returns fuel conditionBitmap threshold d d' H1 H2 Hrun)
        as (k & _ & Hd' & _ & Hok).
      subst d'. rewrite reportResults_outcome. cbn [DetectionResult.found].
      destruct (isResultAboveThreshold _ threshold); [|reflexivity].
      specialize (Hok eq_refl). apply Qltb_lt in Hok.
      exfalso. exact (Qlt_not_le _ _ Hok Hcol).
    + rewrite (match_threshold_tooLarge fuel conditionBitmap threshold d H1 H2) in Hrun.
      inversion Hrun. reflexivity.
Qed.

(** X10: when the colour distance of the call is below the threshold, the
    first in-bounds candidate decides: the call returns after extracting it,
    with found = true if its score clears the floor and found = false
    otherwise. *)
Theorem visual_first_in_bounds_decides
    (fuel n : nat) (conditionBitmap : Bitmap) (threshold : Z) (d : Detector.t) :
  roiInvalid d = false ->
  templateFits conditionBitmap d = true ->
  (candidateColorDiff (prepared conditionBitmap d) < inject_Z threshold)%Q ->
  (forall i, (i < n)%nat ->
     candidateInBounds (locateN (S i) (prepared conditionBitmap d)) = false) ->
  candidateInBounds (locateN (S n) (prepared conditionBitmap d)) = true ->
  (n < fuel)%nat ->
  match_threshold fuel conditionBitmap threshold d
  = Some (reportResults
            (isResultAboveThreshold
               (Detector.matchingResults (locateN (S n) (prepared conditionBitmap d)))
               threshold)
            (locateN (S n) (prepared conditionBitmap d))).
Proof.
  intros H1 H2 Hcol Hskip Hin Hfuel.
  assert (Hcol' :
    Qltb (candidateColorDiff (locate (locateN n (prepared conditionBitmap d))))
         (inject_Z threshold) = true).
  { rewrite candidateColorDiff_locate, candidateColorDiff_locateN. now apply Qltb_lt. }
  apply match_threshold_exit; try assumption.
  - intros i Hi. apply threshold_body_outOfBounds. now apply Hskip.
  - destruct (isResultAboveThreshold
                (Detector.matchingResults (locateN (S n) (prepared conditionBitmap d)))
                threshold) eqn:Habove.
    + apply threshold_body_accepted; [exact Hin | exact Habove | exact Hcol'].
    + now apply threshold_body_belowFloor.
Qed.

Lemma threshold_loop_stuck (t : Z) (fuel : nat) :
  forall (isFound : bool) (d : Detector.t),
  (forall k,
     candidateInBounds (locateN (S k) d) = false
     \/ (isResultAboveThreshold (Detector.matchingResults (locateN (S k) d)) t = true
         /\ Qltb (candidateColorDiff d) (inject_Z t) = false)) ->
  while_true fuel (match_threshold_body t) (isFound, d) = None.
Proof.
  induction fuel as [|fuel IH]; intros isFound d Hall; [reflexivity|].
  assert (Hbody : match_threshold_body t (isFound, d) = Continue (isFound, locate d)).
  { destruct (Hall 0%nat) as [Hout | [Habove Hcol]].
    - now apply threshold_body_outOfBounds.
    - destruct (candidateInBounds (locate d)) eqn:Hin.
      + now apply threshold_body_colourRejected.
      + now apply threshold_body_outOfBounds. }
  rewrite (while_true_continue _ fuel _ _ Hbody).
  apply IH. intro k. rewrite locateN_shift, candidateColorDiff_locate. apply Hall.
Qed.

(** X11: a visual search does not return while every extracted candidate is
    either out of bounds or clears the floor with the colour test failing:
    nothing bounds the number of extractions. *)
Theorem visual_search_unbounded
    (fuel : nat) (conditionBitmap : Bitmap) (threshold : Z) (d : Detector.t) :
  roiInvalid d = false ->
  templateFits conditionBitmap d = true ->
  (forall k,
     candidateInBounds (locateN (S k) (prepared conditionBitmap d)) = false
     \/ (isResultAboveThreshold
           (Detector.matchingResults (locateN (S k) (prepared conditionBitmap d)))
           threshold = true
         /\ (inject_Z threshold <= candidateColorDiff (prepared conditionBitmap d))%Q)) ->
  match_threshold fuel conditionBitmap threshold d = None.
Proof.
  intros H1 H2 Hall.
  rewrite (match_threshold_loop fuel conditionBitmap threshold d H1 H2).
  rewrite (threshold_loop_stuck threshold fuel false (prepared conditionBitmap d)); [reflexivity|].
  intro k. destruct (Hall k) as [Hout | [Habove Hcol]]; [left; exact Hout | right].
  split; [exact Habove | now apply Qltb_ge].
Qed.

(** X12: a text search does not return while every extracted candidate is
    out of bounds, whatever the screen shows: the cap counts OCR attempts,
    not extractions. *)
Theorem text_search_unbounded
    (fuel : nat) (conditionBitmap : Bitmap) (identifying : string) (d : Detector.t) :
  roiInvalid d = false ->
  templateFits conditionBitmap d = true ->
  (forall k, candidateInBounds (locateN (S k) (prepared conditionBitmap d)) = false) ->
  match_text fuel conditionBitmap identifying d = None
  /\ forall threshold, match_threshold fuel conditionBitmap threshold d = None.
Proof.
  intros H1 H2 Hall. split.
  - rewrite (match_text_loop fuel conditionBitmap identifying d H1 H2).
    now rewrite (text_loop_stuck identifying fuel false 0%nat (prepared conditionBitmap d) Hall).
  - intro threshold.
    rewrite (match_threshold_loop fuel conditionBitmap threshold d H1 H2).
    rewrite (threshold_loop_stuck threshold fuel false (prepared conditionBitmap d));
      [reflexivity|].
    intro k. left. apply Hall.
Qed.

End Returns.

Section TextReturns.

Context {collaborators : Collaborators}.

Lemma ocrAttempts_length (d : Detector.t) : ocrAttempts d = List.length (ocrImages d).
Proof.
  unfold ocrAttempts, countCalls, ocrImages.
  induction (Detector.calls d) as [|c l IH]; [reflexivity|].
  destruct c; cbn [filter flat_map isSetImage List.length app]; rewrite ?IH; reflexivity.
Qed.

(** When the screen shows the target, the text loop is left at the first
    in-bounds candidate, after one OCR attempt. *)
Lemma text_loop_returns_found (id : string) (fuel : nat) :
  forall (isFound : bool) (rc : nat) (d : Detector.t) (out : Flow (bool * nat * Detector.t)),
  find (extractedText d) id <> None ->
  while_true fuel (match_text_body id) (isFound, rc, d) = Some out ->
  exists k,
    (k < fuel)%nat
    /\ out = Break (true, rc,
                    Detector.log
                      (CallSetImage (toPix (ScreenImage.fullSizeColor (Detector.screenImage d))))
                      (locateN (S k) d))
    /\ candidateInBounds (locateN (S k) d) = true
    /\ (forall i, (i < k)%nat -> candidateInBounds (locateN (S i) d) = false).
Proof.
  induction fuel as [|fuel IH]; intros isFound rc d out Htext Hrun; [discriminate|].
  cbn [while_true] in Hrun.
  destruct (candidateInBounds (locate d)) eqn:Hin.
  - rewrite (text_body_found id isFound rc d Hin Htext) in Hrun.
    inversion Hrun; subst out. exists 0%nat.
    split; [lia|]. split; [reflexivity|]. split; [exact Hin|].
    intros i Hi. lia.
  - rewrite (text_body_outOfBounds id isFound rc d Hin) in Hrun.
    destruct (IH isFound rc (locate d) out) as (k & Hk & Hout & Hink & Hbefore);
      [now rewrite extractedText_locate | exact Hrun |].
    rewrite locateN_shift in Hout, Hink.
    exists (S k). split; [lia|]. split; [exact Hout|]. split; [exact Hink|].
    intros i Hi. destruct i as [|i]; [exact Hin|].
    rewrite <- locateN_shift. apply Hbefore. lia.
Qed.

(** When the screen does not show the target, the text loop is left through
    the cap, after reading the same image until one hundred attempts are
    reached. *)
Lemma text_loop_returns_missed (id : string) (fuel : nat) :
  forall (isFound : bool) (rc m : nat) (d : Detector.t) (out : Flow (bool * nat * Detector.t)),
  find (extractedText d) id = None ->
  (m + rc = 100)%nat -> (0 < m)%nat ->
  while_true fuel (match_text_body id) (isFound, rc, d) = Some out ->
  exists d',
    out = Return (isFound, 100%nat, d')
    /\ Detector.detectionResult d' = notFound
    /\ ocrImages d'
       = repeat (toPix (ScreenImage.fullSizeColor (Detector.screenImage d))) m ++ ocrImages d
    /\ resultWrites d' = S (resultWrites d)
    /\ correlationRuns d' = correlationRuns d
    /\ templateReads d' = templateReads d
    /\ keepsSetup d d'.
Proof.
  induction fuel as [|fuel IH]; intros isFound rc m d out Htext Hm Hpos Hrun; [discriminate|].
  cbn [while_true] in Hrun.
  destruct (candidateInBounds (locate d)) eqn:Hin.
  - rewrite (text_body_missed id isFound rc d Hin Htext) in Hrun. cbv zeta in Hrun.
    set (pix := toPix (ScreenImage.fullSizeColor (Detector.screenImage d))) in *.
    set (d2 := Detector.log (CallSetImage pix) (locate d)) in *.
    destruct (100 <=? S rc)%nat eqn:Hcap.
    + apply Nat.leb_le in Hcap.
      assert (E : S rc = 100%nat) by lia. assert (m = 1%nat) as -> by lia.
      rewrite E in Hrun. inversion Hrun; subst out.
      exists (clearResults d2).
      split; [reflexivity|]. split; [reflexivity|]. split; [reflexivity|].
      unfold d2. repeat split; count_calls; rewrite ?countCalls_locate; count_calls.
    + apply Nat.leb_gt in Hcap.
      destruct m as [|m]; [lia|].
      destruct (IH isFound (S rc) m d2 out) as (d' & Hout & Hres & Himg & Hw & Hcor & Htr & Hkeep);
        [exact Htext | lia | lia | exact Hrun |].
      exists d'. split; [exact Hout|]. split; [exact Hres|]. split.
      * rewrite Himg.
        change (Detector.screenImage d2) with (Detector.screenImage d). fold pix.
        change (ocrImages d2) with (pix :: ocrImages d).
        change (pix :: ocrImages d) with ([pix] ++ ocrImages d).
        rewrite app_assoc, <- repeat_cons. reflexivity.
      * rewrite Hw, Hcor, Htr. unfold d2.
        split; [count_calls; rewrite ?countCalls_locate; count_calls|].
        split; [count_calls; rewrite ?countCalls_locate; count_calls|].
        split; [count_calls; rewrite ?countCalls_locate; count_calls|].
        apply keepsSetup_trans with (b := d2); [repeat split | exact Hkeep].
  - rewrite (text_body_outOfBounds id isFound rc d Hin) in Hrun.
    destruct (IH isFound rc m (locate d) out) as (d' & Hout & Hres & Himg & Hw & Hcor & Htr & Hkeep);
      [now rewrite extractedText_locate | exact Hm | exact Hpos | exact Hrun |].
    exists d'. split; [exact Hout|]. split; [exact Hres|]. split; [exact Himg|].
    rewrite Hw, Hcor, Htr.
    split; [count_calls; rewrite ?countCalls_locate; count_calls|].
    split; [count_calls; rewrite ?countCalls_locate; count_calls|].
    split; [count_calls; rewrite ?countCalls_locate; count_calls|].
    apply keepsSetup_trans with (b := locate d); [repeat split | exact Hkeep].
Qed.

Lemma ocrImages_reportResults (f : bool) (d : Detector.t) :
  ocrImages (reportResults f d) = ocrImages d.
Proof. reflexivity. Qed.

Lemma ocrImages_logSetImage (p : Pix.t) (d : Detector.t) :
  ocrImages (Detector.log (CallSetImage p) d) = p :: ocrImages d.
Proof. reflexivity. Qed.

Lemma ocrImages_prepared (b : Bitmap) (d : Detector.t) :
  ocrImages (prepared b d) = ocrImages d.
Proof. reflexivity. Qed.

(** X13: a text search that passed both checks and returns has done one of
    two things.  Either the text read from the screen contains the target:
    then found is true, the screen was read once, and the call stopped at
    the first in-bounds candidate.  Or it does not: then the outcome is
    cleared and the same image of the whole frame was read one hundred
    times. *)
Theorem text_outcome_complete
    (fuel : nat) (conditionBitmap : Bitmap) (identifying : string) (d d' : Detector.t) :
  roiInvalid d = false ->
  templateFits conditionBitmap d = true ->
  match_text fuel conditionBitmap identifying d = Some d' ->
  ((exists pre post,
      extractedText (prepared conditionBitmap d) = (pre ++ identifying ++ post)%string)
   /\ DetectionResult.found (Detector.detectionResult d') = true
   /\ ocrImages d'
      = toPix (ScreenImage.fullSizeColor (Detector.screenImage (prepared conditionBitmap d)))
        :: ocrImages d
   /\ exists k,
        (k < fuel)%nat
        /\ candidateInBounds (locateN (S k) (prepared conditionBitmap d)) = true
        /\ (forall i, (i < k)%nat ->
              candidateInBounds (locateN (S i) (prepared conditionBitmap d)) = false)
        /\ extractions d' = (extractions d + S k)%nat)
  \/ (~ (exists pre post,
           extractedText (prepared conditionBitmap d) = (pre ++ identifying ++ post)%string)
      /\ Detector.detectionResult d' = notFound
      /\ ocrImages d'
         = repeat
             (toPix (ScreenImage.fullSizeColor
                       (Detector.screenImage (prepared conditionBitmap d))))
             100
           ++ ocrImages d).
Proof.
  intros H1 H2 Hrun.
  rewrite (match_text_loop fuel conditionBitmap identifying d H1 H2) in Hrun.
  destruct (while_true fuel (match_text_body identifying)
              (false, 0%nat, prepared conditionBitmap d)) as [out|] eqn:W; [|discriminate].
  destruct (find (extractedText (prepared conditionBitmap d)) identifying) as [idx|] eqn:F.
  - left.
    assert (Htext : find (extractedText (prepared conditionBitmap d)) identifying <> None)
      by congruence.
    destruct (text_loop_returns_found identifying fuel false 0%nat
                (prepared conditionBitmap d) out Htext W) as (k & Hk & Hout & Hin & Hbefore).
    subst out. cbv beta iota in Hrun. injection Hrun as Hd'. subst d'.
    split; [now apply find_substring|]. split; [reflexivity|].
    split.
    { rewrite ocrImages_reportResults, ocrImages_logSetImage.
      change (ocrImages (locate (locateN k (prepared conditionBitmap d))))
        with (ocrImages (locateN k (prepared conditionBitmap d))).
      rewrite ocrImages_locateN, ocrImages_prepared. reflexivity. }
    exists k. split; [exact Hk|]. split; [exact Hin|]. split; [exact Hbefore|].
    count_all; rewrite ?countCalls_locate; count_all.
  - right.
    destruct (text_loop_returns_missed identifying fuel false 0%nat 100%nat
                (prepared conditionBitmap d) out F) as (d2 & Hout & Hres & Himg & _);
      [reflexivity | lia | exact W |].
    subst out. cbv beta iota in Hrun. injection Hrun as Hd'. subst d'.
    split.
    + intro Hsub. apply find_substring in Hsub. congruence.
    + split; [exact Hres|]. rewrite Himg, ocrImages_prepared. reflexivity.
Qed.

(** X14: a detection call that returns, in either mode, has written the
    outcome exactly once, has run the correlation engine and read a
    template at most once, and has left the scale ratio, the region of
    interest and the bitmap named [conditionBitmap] as they were. *)
Theorem call_writes_outcome_once
    (fuel : nat) (conditionBitmap : Bitmap) (threshold : Z) (identifying : string)
    (d d' : Detector.t) :
  match_threshold fuel conditionBitmap threshold d = Some d'
  \/ match_text fuel conditionBitmap identifying d = Some d' ->
  resultWrites d' = S (resultWrites d)
  /\ (correlationRuns d' <= S (correlationRuns d))%nat
  /\ (templateReads d' <= S (templateReads d))%nat
  /\ keepsSetup d d'.
Proof.
  intro Hrun.
  destruct (roiInvalid d) eqn:H1.
  - assert (d' = clearResults d) as ->.
    { destruct Hrun as [Hrun|Hrun].
      - rewrite (match_threshold_roiInvalid fuel conditionBitmap threshold d H1) in Hrun.
        congruence.
      - rewrite (match_text_roiInvalid fuel conditionBitmap identifying d H1) in Hrun.
        congruence. }
    split; [count_all|]. split; [count_all|]. split; [count_all | repeat split].
  - destruct (templateFits conditionBitmap d) eqn:H2.
    + destruct Hrun as [Hrun|Hrun].
      * destruct (match_threshold_returns fuel conditionBitmap threshold d d' H1 H2 Hrun)
          as (k & _ & Hd' & _).
        subst d'.
        split; [count_all|]. split; [count_all|]. split; [count_all|].
        apply keepsSetup_trans with (b := locateN (S k) (prepared conditionBitmap d));
          [|repeat split].
        apply keepsSetup_trans with (b := prepared conditionBitmap d);
          [apply keepsSetup_prepared | apply keepsSetup_locateN].
      * rewrite (match_text_loop fuel conditionBitmap identifying d H1 H2) in Hrun.
        destruct (while_true fuel (match_text_body identifying)
                    (false, 0%nat, prepared conditionBitmap d)) as [out|] eqn:W;
          [|discriminate].
        destruct (find (extractedText (prepared conditionBitmap d)) identifying)
          as [idx|] eqn:F.
        -- assert (Htext : find (extractedText (prepared conditionBitmap d)) identifying
                           <> None) by congruence.
           destruct (text_loop_returns_found identifying fuel false 0%nat
                       (prepared conditionBitmap d) out Htext W) as (k & _ & Hout & _).
           subst out. cbv beta iota in Hrun. injection Hrun as Hd'. subst d'.
           split; [count_all; rewrite ?countCalls_locate; count_all|].
           split; [count_all; rewrite ?countCalls_locate; count_all|].
           split; [count_all; rewrite ?countCalls_locate; count_all|].
           apply keepsSetup_trans with (b := locateN (S k) (prepared conditionBitmap d));
             [|repeat split].
           apply keepsSetup_trans with (b := prepared conditionBitmap d);
             [apply keepsSetup_prepared | apply keepsSetup_locateN].
        -- destruct (text_loop_returns_missed identifying fuel false 0%nat 100%nat
                       (prepared conditionBitmap d) out F)
             as (d2 & Hout & _ & _ & Hw & Hcor & Htr & Hkeep);
             [reflexivity | lia | exact W |].
           subst out. cbv beta iota in Hrun. injection Hrun as Hd'. subst d'.
           rewrite Hw, Hcor, Htr.
           split; [count_all|]. split; [count_all|]. split; [count_all|].
           apply keepsSetup_trans with (b := prepared conditionBitmap d);
             [apply keepsSetup_prepared | exact Hkeep].
    + assert (d' = clearResults (cropScreen (readCondition conditionBitmap d))) as ->.
      { destruct Hrun as [Hrun|Hrun].
        - rewrite (match_threshold_tooLarge fuel conditionBitmap threshold d H1 H2) in Hrun.
          congruence.
        - rewrite (match_text_tooLarge fuel conditionBitmap identifying d H1 H2) in Hrun.
          congruence. }
      unfold cropScreen, readCondition.
      unfold resultWrites, correlationRuns, templateReads.
      rewrite !countCalls_clearResults.
      change (countCalls ?p (Detector.setScreenImage ?m ?x)) with (countCalls p x).
      rewrite !countCalls_log.
      change (countCalls ?p (Detector.setConditionImage ?m ?x)) with (countCalls p x).
      cbn [isResultWrite isMatchTemplate isProcessBitmap].
      split; [lia|]. split; [lia|]. split; [lia | repeat split].
Qed.

(** X15: an empty target is found in any text: the text search then accepts
    the first in-bounds candidate, whatever the screen shows. *)
Theorem text_empty_target_always_found
    (fuel n : nat) (conditionBitmap : Bitmap) (d : Detector.t) :
  roiInvalid d = false ->
  templateFits conditionBitmap d = true ->
  (forall i, (i < n)%nat ->
     candidateInBounds (locateN (S i) (prepared conditionBitmap d)) = false) ->
  candidateInBounds (locateN (S n) (prepared conditionBitmap d)) = true ->
  (n < fuel)%nat ->
  exists d',
    match_text fuel conditionBitmap "" d = Some d'
    /\ DetectionResult.found (Detector.detectionResult d') = true
    /\ ocrAttempts d' = S (ocrAttempts d).
Proof.
  intros H1 H2 Hskip Hin Hfuel.
  eexists. split.
  - apply (match_text_found fuel n conditionBitmap "" d H1 H2); try assumption.
    apply find_substring.
    exists ""%string, (extractedText (prepared conditionBitmap d)). reflexivity.
  - split; [reflexivity | count_all].
Qed.

End TextReturns.

Ltac outcome :=
  rewrite reportResults_outcome;
  cbn [Detector.log Detector.detectionRoi Detector.matchingResults];
  rewrite ?detectionRoi_locateN, ?detectionRoi_prepared;
  reflexivity.

Section Claims.

Context {collaborators : Collaborators}.

(** C4: in the visual search loop, once the first [n] extracted candidates
    have been passed over -- each one out of bounds, or clearing the floor
    and failing the colour test -- the next candidate is treated as follows.
    If its scaled region is out of the scaled frame bounds it is discarded:
    the loop goes on from the state in which that candidate was extracted,
    nothing else having happened.  If it is in bounds and its score does not
    clear the acceptance floor, the call resolves with found = false at
    once: exactly [n + 1] candidates have been extracted, and no later one
    is. *)
Theorem visual_search_skips_then_stops
    (fuel n : nat) (conditionBitmap : Bitmap) (threshold : Z) (d : Detector.t) :
  roiInvalid d = false ->
  templateFits conditionBitmap d = true ->
  (forall i, (i < n)%nat ->
     candidateInBounds (locateN (S i) (prepared conditionBitmap d)) = false
     \/ (isResultAboveThreshold
           (Detector.matchingResults (locateN (S i) (prepared conditionBitmap d)))
           threshold = true
         /\ Qltb (candidateColorDiff (prepared conditionBitmap d)) (inject_Z threshold)
            = false)) ->
  (n < fuel)%nat ->
  (candidateInBounds (locateN (S n) (prepared conditionBitmap d)) = false ->
   while_true fuel (match_threshold_body threshold) (false, prepared conditionBitmap d)
   = while_true (fuel - S n) (match_threshold_body threshold)
       (false, locateN (S n) (prepared conditionBitmap d)))
  /\ (candidateInBounds (locateN (S n) (prepared conditionBitmap d)) = true ->
      isResultAboveThreshold
        (Detector.matchingResults (locateN (S n) (prepared conditionBitmap d)))
        threshold = false ->
      while_true fuel (match_threshold_body threshold) (false, prepared conditionBitmap d)
      = Some (Break (false, locateN (S n) (prepared conditionBitmap d)))
      /\ match_threshold fuel conditionBitmap threshold d
         = Some (reportResults false (locateN (S n) (prepared conditionBitmap d)))
      /\ DetectionResult.found
           (Detector.detectionResult
              (reportResults false (locateN (S n) (prepared conditionBitmap d)))) = false
      /\ extractions (reportResults false (locateN (S n) (prepared conditionBitmap d)))
         = (extractions d + S n)%nat)
  /\ Detector.calls (locateN (S n) (prepared conditionBitmap d))
     = repeat CallLocateNextMinMax (S n) ++ Detector.calls (prepared conditionBitmap d).
Proof.
  intros H1 H2 Hpass Hfuel.
  split; [|split].
  - intro Hout. apply threshold_loop_passes; [|lia].
    intros i Hi. destruct (Nat.eq_dec i n) as [->|Hne].
    + left. exact Hout.
    + apply Hpass. lia.
  - intros Hin Hbelow.
    assert (Hrun :
      while_true fuel (match_threshold_body threshold) (false, prepared conditionBitmap d)
      = Some (Break (false, locateN (S n) (prepared conditionBitmap d)))).
    { rewrite (threshold_loop_passes threshold n fuel false (prepared conditionBitmap d) Hpass)
        by lia.
      destruct (fuel - n)%nat as [|rest] eqn:E; [lia|].
      apply while_true_break. now apply threshold_body_belowFloor. }
    split; [exact Hrun|].
    split.
    { rewrite (match_threshold_loop fuel conditionBitmap threshold d H1 H2), Hrun.
      reflexivity. }
    split; [reflexivity | count_all].
  - apply calls_locateN.
Qed.

(** C5, as the code has it: in text mode, when the target does not occur in
    the text read from the screen, the call returns once the search has
    extracted a hundredth in-bounds candidate: it has then made exactly 100
    OCR attempts, cleared the outcome and written it once.  It never returns
    after fewer attempts: whatever the fuel, a call that returns has made
    exactly 100 attempts and cleared the outcome, and while fewer than 100
    in-bounds candidates have been extracted it has not returned.  The loop
    has no other way out; it does not notice a surface that is used up. *)
Theorem text_search_cap
    (conditionBitmap : Bitmap) (identifying : string) (d : Detector.t) :
  roiInvalid d = false ->
  templateFits conditionBitmap d = true ->
  ~ (exists pre post,
       extractedText (prepared conditionBitmap d) = (pre ++ identifying ++ post)%string) ->
  (forall fuel n,
     inBoundsCount (prepared conditionBitmap d) n = 100%nat ->
     candidateInBounds (locateN n (prepared conditionBitmap d)) = true ->
     (n <= fuel)%nat ->
     exists d',
       match_text fuel conditionBitmap identifying d = Some d'
       /\ Detector.detectionResult d' = notFound
       /\ ocrAttempts d' = (ocrAttempts d + 100)%nat
       /\ resultWrites d' = S (resultWrites d)
       /\ extractions d' = (extractions d + n)%nat)
  /\ (forall fuel d',
        match_text fuel conditionBitmap identifying d = Some d' ->
        Detector.detectionResult d' = notFound
        /\ ocrAttempts d' = (ocrAttempts d + 100)%nat)
  /\ (forall fuel,
        (inBoundsCount (prepared conditionBitmap d) fuel < 100)%nat ->
        match_text fuel conditionBitmap identifying d = None).
Proof.
  intros H1 H2 Hmissing.
  assert (Htext : find (extractedText (prepared conditionBitmap d)) identifying = None).
  { destruct (find (extractedText (prepared conditionBitmap d)) identifying) eqn:F;
      [|reflexivity].
    exfalso. apply Hmissing. apply find_substring. congruence. }
  split; [|split].
  - intros fuel n Hcount Hin Hfuel.
    destruct (match_text_cap fuel n conditionBitmap identifying d H1 H2 Htext Hcount Hin Hfuel)
      as (d' & Hrun & Hres & Hocr & Hw & Hex & _).
    exists d'. repeat split; assumption.
  - intros fuel d' Hrun.
    exact (match_text_never_fewer fuel conditionBitmap identifying d d' H1 H2 Htext Hrun).
  - intros fuel Hcount.
    now apply match_text_not_yet.
Qed.

(** C8: in text mode the call resolves found = true at the first in-bounds
    candidate once the text read from the screen contains the target as a
    literal substring: the earlier, out-of-bounds candidates are passed
    over, the screen is handed to the OCR engine once, and the outcome holds
    that candidate's position and score.  When the text does not contain the
    target, no candidate is accepted: a call that returns has cleared the
    outcome.  The score plays no part in either: two runs on surfaces with
    different scores, but yielding the same candidate locations, leave the
    loop in the same way after the same calls. *)
Theorem text_search_accepts_first_match
    (conditionBitmap : Bitmap) (identifying : string) (d : Detector.t) :
  (forall fuel n,
     roiInvalid d = false ->
     templateFits conditionBitmap d = true ->
     (exists pre post,
        extractedText (prepared conditionBitmap d) = (pre ++ identifying ++ post)%string) ->
     (forall i, (i < n)%nat ->
        candidateInBounds (locateN (S i) (prepared conditionBitmap d)) = false) ->
     candidateInBounds (locateN (S n) (prepared conditionBitmap d)) = true ->
     (n < fuel)%nat ->
     exists d',
       match_text fuel conditionBitmap identifying d = Some d'
       /\ Detector.detectionResult d'
          = DetectionResult.make true
              (int_add (Rect.x (ScalableRoi.fullSize (Detector.detectionRoi d)))
                 (fullSizeCenterX
                    (MatchingResults.roi
                       (Detector.matchingResults (locateN (S n) (prepared conditionBitmap d))))))
              (int_add (Rect.y (ScalableRoi.fullSize (Detector.detectionRoi d)))
                 (fullSizeCenterY
                    (MatchingResults.roi
                       (Detector.matchingResults (locateN (S n) (prepared conditionBitmap d))))))
              (MatchingResults.maxVal
                 (Detector.matchingResults (locateN (S n) (prepared conditionBitmap d))))
       /\ ocrImages d'
          = toPix (ScreenImage.fullSizeColor
                     (Detector.screenImage (prepared conditionBitmap d)))
            :: ocrImages d
       /\ ocrAttempts d' = S (ocrAttempts d)
       /\ extractions d' = (extractions d + S n)%nat)
  /\ (forall fuel d',
        roiInvalid d = false ->
        templateFits conditionBitmap d = true ->
        ~ (exists pre post,
             extractedText (prepared conditionBitmap d)
             = (pre ++ identifying ++ post)%string) ->
        match_text fuel conditionBitmap identifying d = Some d' ->
        DetectionResult.found (Detector.detectionResult d') = false
        /\ Detector.detectionResult d' = notFound)
  /\ (forall (R : MatchingResults.t -> MatchingResults.t -> Prop) fuel isFound repeatCycle d1 d2,
        (forall a b, R a b -> MatchingResults.roi a = MatchingResults.roi b) ->
        (forall a b templ ratio,
           R a b -> R (locateNextMinMax a templ ratio) (locateNextMinMax b templ ratio)) ->
        sameButScores R d1 d2 ->
        inLockstep R
          (while_true fuel (match_text_body identifying) (isFound, repeatCycle, d1))
          (while_true fuel (match_text_body identifying) (isFound, repeatCycle, d2))).
Proof.
  split; [|split].
  - intros fuel n H1 H2 Htext Hskip Hin Hfuel.
    apply find_substring in Htext.
    eexists. split.
    + exact (match_text_found fuel n conditionBitmap identifying d H1 H2 Htext Hskip Hin Hfuel).
    + split; [outcome|].
      split.
      { rewrite ocrImages_reportResults, ocrImages_logSetImage.
        rewrite ocrImages_locateN, ocrImages_prepared. reflexivity. }
      split; count_all.
  - intros fuel d' H1 H2 Hmissing Hrun.
    assert (Htext : find (extractedText (prepared conditionBitmap d)) identifying = None).
    { destruct (find (extractedText (prepared conditionBitmap d)) identifying) eqn:F;
        [|reflexivity].
      exfalso. apply Hmissing. apply find_substring. congruence. }
    destruct (match_text_never_fewer fuel conditionBitmap identifying d d' H1 H2 Htext Hrun)
      as [Hres _].
    split; [rewrite Hres; reflexivity | exact Hres].
  - intros R fuel isFound repeatCycle d1 d2 HR1 HR2 Hsim.
    now apply text_loop_lockstep.
Qed.

(** C2, as the code has it: a detection call that leaves its search loop
    writes the outcome exactly once.  It is cleared when the region of
    interest is invalid, when the template is too large and when the text
    cap is reached.  Otherwise it is set in full, to the flag with which the
    loop was left and the position and score of the last extracted
    candidate; in visual mode this is also what happens when the loop is
    left with found = false. *)
Theorem outcome_written_once (conditionBitmap : Bitmap) (d : Detector.t) :
  (forall fuel threshold identifying,
     roiInvalid d = true \/ templateFits conditionBitmap d = false ->
     exists d',
       match_threshold fuel conditionBitmap threshold d = Some d'
       /\ match_text fuel conditionBitmap identifying d = Some d'
       /\ Detector.detectionResult d' = notFound
       /\ resultWrites d' = S (resultWrites d))
  /\ (forall fuel threshold n isFound,
        roiInvalid d = false ->
        templateFits conditionBitmap d = true ->
        (forall i, (i < n)%nat ->
           match_threshold_body threshold (false, locateN i (prepared conditionBitmap d))
           = Continue (false, locateN (S i) (prepared conditionBitmap d))) ->
        match_threshold_body threshold (false, locateN n (prepared conditionBitmap d))
        = Break (isFound, locateN (S n) (prepared conditionBitmap d)) ->
        (n < fuel)%nat ->
        exists d',
          match_threshold fuel conditionBitmap threshold d = Some d'
          /\ Detector.detectionResult d'
             = DetectionResult.make isFound
                 (int_add (Rect.x (ScalableRoi.fullSize (Detector.detectionRoi d)))
                    (fullSizeCenterX
                       (MatchingResults.roi
                          (Detector.matchingResults (locateN (S n) (prepared conditionBitmap d))))))
                 (int_add (Rect.y (ScalableRoi.fullSize (Detector.detectionRoi d)))
                    (fullSizeCenterY
                       (MatchingResults.roi
                          (Detector.matchingResults (locateN (S n) (prepared conditionBitmap d))))))
                 (MatchingResults.maxVal
                    (Detector.matchingResults (locateN (S n) (prepared conditionBitmap d))))
          /\ resultWrites d' = S (resultWrites d))
  /\ (forall fuel identifying n,
        roiInvalid d = false ->
        templateFits conditionBitmap d = true ->
        find (extractedText (prepared conditionBitmap d)) identifying <> None ->
        (forall i, (i < n)%nat ->
           candidateInBounds (locateN (S i) (prepared conditionBitmap d)) = false) ->
        candidateInBounds (locateN (S n) (prepared conditionBitmap d)) = true ->
        (n < fuel)%nat ->
        exists d',
          match_text fuel conditionBitmap identifying d = Some d'
          /\ Detector.detectionResult d'
             = DetectionResult.make true
                 (int_add (Rect.x (ScalableRoi.fullSize (Detector.detectionRoi d)))
                    (fullSizeCenterX
                       (MatchingResults.roi
                          (Detector.matchingResults (locateN (S n) (prepared conditionBitmap d))))))
                 (int_add (Rect.y (ScalableRoi.fullSize (Detector.detectionRoi d)))
                    (fullSizeCenterY
                       (MatchingResults.roi
                          (Detector.matchingResults (locateN (S n) (prepared conditionBitmap d))))))
                 (MatchingResults.maxVal
                    (Detector.matchingResults (locateN (S n) (prepared conditionBitmap d))))
          /\ resultWrites d' = S (resultWrites d))
  /\ (forall fuel identifying n,
        roiInvalid d = false ->
        templateFits conditionBitmap d = true ->
        find (extractedText (prepared conditionBitmap d)) identifying = None ->
        inBoundsCount (prepared conditionBitmap d) n = 100%nat ->
        candidateInBounds (locateN n (prepared conditionBitmap d)) = true ->
        (n <= fuel)%nat ->
        exists d',
          match_text fuel conditionBitmap identifying d = Some d'
          /\ Detector.detectionResult d' = notFound
          /\ resultWrites d' = S (resultWrites d)).
Proof.
  split; [|split; [|split]].
  - intros fuel threshold identifying [H|H].
    + exists (clearResults d).
      split; [now apply match_threshold_roiInvalid|].
      split; [now apply match_text_roiInvalid|].
      split; [reflexivity | count_all].
    + destruct (roiInvalid d) eqn:Hroi.
      * exists (clearResults d).
        split; [now apply match_threshold_roiInvalid|].
        split; [now apply match_text_roiInvalid|].
        split; [reflexivity | count_all].
      * exists (clearResults (cropScreen (readCondition conditionBitmap d))).
        split; [now apply match_threshold_tooLarge|].
        split; [now apply match_text_tooLarge|].
        split; [reflexivity|].
        unfold resultWrites. rewrite countCalls_clearResults.
        unfold cropScreen, readCondition.
        change (countCalls isResultWrite (Detector.setScreenImage ?m ?x))
          with (countCalls isResultWrite x).
        rewrite countCalls_log. reflexivity.
  - intros fuel threshold n isFound H1 H2 Hskip Hexit Hfuel.
    eexists. split.
    + exact (match_threshold_exit fuel n conditionBitmap threshold isFound d H1 H2 Hskip Hexit Hfuel).
    + split; [outcome | count_all].
  - intros fuel identifying n H1 H2 Htext Hskip Hin Hfuel.
    eexists. split.
    + exact (match_text_found fuel n conditionBitmap identifying d H1 H2 Htext Hskip Hin Hfuel).
    + split; [outcome | count_all].
  - intros fuel identifying n H1 H2 Htext Hcount Hin Hfuel.
    destruct (match_text_cap fuel n conditionBitmap identifying d H1 H2 Htext Hcount Hin Hfuel)
      as (d' & Hrun & Hres & Hocr & Hw & _).
    exists d'. repeat split; assumption.
Qed.

(** The whole-frame text overload never reads its bitmap parameter. *)
Lemma detectCondition_text_unfold
    (fuel : nat) (conditionImage : Bitmap) (identifying : string) (d : Detector.t) :
  detectCondition_text fuel conditionImage identifying d
  = match_text fuel (Detector.conditionBitmap d) identifying (wholeFrameRoi d).
Proof. reflexivity. Qed.

End Claims.

(** ** The claims on concrete frames *)

Section Frames.

Context {collaborators : Collaborators}.

Lemma screenImage_locateN (n : nat) (d : Detector.t) :
  Detector.screenImage (locateN n d) = Detector.screenImage d.
Proof. induction n as [|n IH]; simpl; [reflexivity | exact IH]. Qed.

Lemma conditionImage_locateN (n : nat) (d : Detector.t) :
  Detector.conditionImage (locateN n d) = Detector.conditionImage d.
Proof. induction n as [|n IH]; simpl; [reflexivity | exact IH]. Qed.

Lemma scaleRatio_locateN (n : nat) (d : Detector.t) :
  Detector.scaleRatio (locateN n d) = Detector.scaleRatio d.
Proof. induction n as [|n IH]; simpl; [reflexivity | exact IH]. Qed.

End Frames.

(** C7 on a concrete frame: a 5 x 5 region of interest on a 1 x 1 frame. *)
Lemma roi_out_of_bounds_clears_witness :
  @match_threshold Reference.env 0 Reference.whiteDot 50 (@rectRoi Reference.env 0 0 5 5 (Reference.start Reference.whiteDot))
  = Some (clearResults (@rectRoi Reference.env 0 0 5 5 (Reference.start Reference.whiteDot))).
Proof.
  apply (@roi_out_of_bounds_clears Reference.env 0%nat Reference.whiteDot 50 "A"
           (@rectRoi Reference.env 0 0 5 5 (Reference.start Reference.whiteDot))).
  left. vm_compute. reflexivity.
Defined.

(** C6 on a concrete frame: a 2 x 2 template against a 1 x 1 frame. *)
Lemma template_too_large_clears_witness :
  exists d',
    @match_threshold Reference.env 0 Reference.whiteSquare 50 (@wholeFrameRoi Reference.env (Reference.start Reference.whiteDot)) = Some d'
    /\ @match_text Reference.env 0 Reference.whiteSquare "A" (@wholeFrameRoi Reference.env (Reference.start Reference.whiteDot)) = Some d'
    /\ Detector.detectionResult d' = notFound
    /\ DetectionResult.found (Detector.detectionResult d') = false
    /\ correlationRuns d' = correlationRuns (@wholeFrameRoi Reference.env (Reference.start Reference.whiteDot))
    /\ extractions d' = extractions (@wholeFrameRoi Reference.env (Reference.start Reference.whiteDot))
    /\ resultWrites d' = S (resultWrites (@wholeFrameRoi Reference.env (Reference.start Reference.whiteDot))).
Proof.
  apply (@template_too_large_clears Reference.env 0%nat Reference.whiteSquare 50 "A"
           (@wholeFrameRoi Reference.env (Reference.start Reference.whiteDot))).
  left. vm_compute. reflexivity.
Defined.

(** C1 on a concrete frame: threshold 50 on the black and white frame. *)
Lemma visual_acceptance_witness :
  @match_threshold_body Reference.env 50 (false, Reference.atLoop Reference.blackWhite Reference.whiteDot)
  = Break (true, @locate Reference.env (Reference.atLoop Reference.blackWhite Reference.whiteDot))
  <-> (inject_Z (100 - 50) / 100
       < MatchingResults.maxVal
           (Detector.matchingResults (@locate Reference.env (Reference.atLoop Reference.blackWhite Reference.whiteDot))))%Q
      /\ (@candidateColorDiff (@locate Reference.env (Reference.atLoop Reference.blackWhite Reference.whiteDot)) < inject_Z 50)%Q.
Proof.
  apply (@visual_acceptance Reference.env 50 false (Reference.atLoop Reference.blackWhite Reference.whiteDot)).
  - lia.
  - vm_compute. reflexivity.
Defined.

(** C3 on a concrete frame: the frame that reads LOGIN. *)
Lemma text_mode_ocr_input_witness :
  ocrImages (snd (flowState (@match_text_body Reference.env "LOG" (false, 0%nat, Reference.atLoop Reference.loginFrame Reference.loginDot))))
  = toPix (ScreenImage.fullSizeColor (Detector.screenImage (Reference.atLoop Reference.loginFrame Reference.loginDot)))
    :: ocrImages (Reference.atLoop Reference.loginFrame Reference.loginDot).
Proof.
  apply (@text_mode_ocr_input Reference.env "LOG" false 0%nat (Reference.atLoop Reference.loginFrame Reference.loginDot)).
  vm_compute. reflexivity.
Defined.

(** C4 on concrete frames.  At threshold 50 on the black and white frame,
    the white candidate clears the floor and fails the colour test; the
    next candidate is in bounds, scores 0 and stops the search with
    found = false after two extractions.  With a search that reports its
    candidates one pixel to the right, the first candidate is off the frame
    and the loop goes on from the state that extraction left. *)
Lemma visual_search_skips_then_stops_witness :
  (@match_threshold Reference.env 2 Reference.whiteDot 50
     (@wholeFrameRoi Reference.env (Reference.start Reference.blackWhite))
   = Some (@reportResults Reference.env false
             (@locateN Reference.env 2 (Reference.atLoop Reference.blackWhite Reference.whiteDot)))
   /\ extractions
        (@reportResults Reference.env false
           (@locateN Reference.env 2 (Reference.atLoop Reference.blackWhite Reference.whiteDot)))
      = 2%nat)
  /\ while_true 2 (@match_threshold_body Reference.offFrame 50)
       (false, Reference.atLoopOff Reference.blackWhite Reference.whiteDot)
     = while_true 1 (@match_threshold_body Reference.offFrame 50)
         (false, @locateN Reference.offFrame 1 (Reference.atLoopOff Reference.blackWhite Reference.whiteDot)).
Proof.
  split.
  - destruct (@visual_search_skips_then_stops Reference.env 2%nat 1%nat Reference.whiteDot 50
                (@wholeFrameRoi Reference.env (Reference.start Reference.blackWhite)))
      as (_ & Hstop & _).
    + vm_compute. reflexivity.
    + vm_compute. reflexivity.
    + intros i Hi. assert (i = 0%nat) as -> by lia.
      right. split; vm_compute; reflexivity.
    + lia.
    + destruct Hstop as (_ & Hrun & _ & Hex).
      * vm_compute. reflexivity.
      * vm_compute. reflexivity.
      * split; [exact Hrun | exact Hex].
  - destruct (@visual_search_skips_then_stops Reference.offFrame 2%nat 0%nat Reference.whiteDot 50
                (Reference.wholeFrameOff Reference.blackWhite))
      as (Hskip & _ & _).
    + vm_compute. reflexivity.
    + vm_compute. reflexivity.
    + intros i Hi. lia.
    + lia.
    + apply Hskip. vm_compute. reflexivity.
Defined.

(** C5 on a concrete frame: a white 1 x 1 frame, the target A.  The call
    returns with fuel 100, after 100 attempts, and has not returned with
    fuel 99. *)
Lemma text_search_cap_witness :
  (exists d',
     @match_text Reference.env 100 Reference.whiteDot "A" (@wholeFrameRoi Reference.env (Reference.start Reference.whiteDot)) = Some d'
     /\ Detector.detectionResult d' = notFound
     /\ ocrAttempts d' = (ocrAttempts (@wholeFrameRoi Reference.env (Reference.start Reference.whiteDot)) + 100)%nat
     /\ resultWrites d' = S (resultWrites (@wholeFrameRoi Reference.env (Reference.start Reference.whiteDot)))
     /\ extractions d' = (extractions (@wholeFrameRoi Reference.env (Reference.start Reference.whiteDot)) + 100)%nat)
  /\ @match_text Reference.env 99 Reference.whiteDot "A" (@wholeFrameRoi Reference.env (Reference.start Reference.whiteDot)) = None.
Proof.
  destruct (@text_search_cap Reference.env Reference.whiteDot "A"
              (@wholeFrameRoi Reference.env (Reference.start Reference.whiteDot)))
    as (Hcap & _ & Hnot).
  - vm_compute. reflexivity.
  - vm_compute. reflexivity.
  - intro Htext. apply find_substring in Htext. apply Htext. vm_compute. reflexivity.
  - split.
    + apply (Hcap 100%nat 100%nat); [vm_compute; reflexivity | vm_compute; reflexivity | lia].
    + apply Hnot. vm_compute. lia.
Defined.

(** Each extraction of the reference search keeps two such surfaces in
    step: it picks the same cell in both and suppresses the same cells. *)
Lemma sameCandidates_next (a b : MatchingResults.t) (templ : Mat.t) (ratio : Q) :
  sameCandidates a b ->
  sameCandidates (@locateNextMinMax Reference.env a templ ratio)
                 (@locateNextMinMax Reference.env b templ ratio).
Proof.
  destruct a as [ra roia va], b as [rb roib vb].
  unfold sameCandidates.
  cbn [MatchingResults.results MatchingResults.roi].
  intros (Hroi & x0 & x1 & y0 & y1 & Ea & Eb & H0 & H1). subst ra rb roib.
  change (@locateNextMinMax Reference.env) with Reference.locateNextMinMax.
  unfold Reference.locateNextMinMax. cbn [MatchingResults.results].
  destruct H0 as [[-> ->] | [-> ->]], H1 as [[-> ->] | [-> ->]];
    repeat match goal with
    | |- context [Reference.globalMax ?s] =>
        let v := eval vm_compute in (Reference.globalMax s) in
        change (Reference.globalMax s) with v
    end;
    cbv beta iota;
    cbn [MatchingResults.results MatchingResults.roi];
    (split; [reflexivity|]);
    unfold Reference.suppress;
    cbn [List.length seq combine map];
    destruct (Reference.within _ (Mat.rows templ) 0);
    cbn [andb];
    try destruct (Reference.within _ (Mat.cols templ) 0);
    try destruct (Reference.within _ (Mat.cols templ) 1);
    eexists _, _, _, _;
    (split; [reflexivity|]); (split; [reflexivity|]);
    split; ((left; split; reflexivity) || (right; split; reflexivity)).
Qed.

(** C8 on concrete frames.  With a search that reports its candidates one
    pixel to the right, the pixel reading LOG is found first but is off the
    frame; the second candidate scores 0, is in bounds, and is accepted
    because the frame reads IN!LOG, after one OCR attempt on the whole
    frame.  On the white 1 x 1 frame the target A is not read and the call
    returns the cleared outcome, though its one candidate scores 1.  On the
    frame that reads LOGIN, the run on the surface with scores 1 and 0 and
    the run on the surface with scores 1/2 and 1/4 leave the loop in the
    same way. *)
Lemma text_search_accepts_first_match_witness :
  (exists d',
     @match_text Reference.offFrame 2 Reference.loginDot "LOG" (Reference.wholeFrameOff Reference.inLogFrame) = Some d'
     /\ Detector.detectionResult d' = DetectionResult.make true 1 0 0%Q
     /\ ocrImages d' = [toPix Reference.inLogFrame]
     /\ ocrAttempts d' = 1%nat
     /\ extractions d' = 2%nat)
  /\ (exists d',
        @match_text Reference.env 100 Reference.whiteDot "A"
          (@wholeFrameRoi Reference.env (Reference.start Reference.whiteDot)) = Some d'
        /\ MatchingResults.maxVal
             (Detector.matchingResults
                (@locate Reference.env (Reference.atLoop Reference.whiteDot Reference.whiteDot))) = 1%Q
        /\ Detector.detectionResult d' = notFound)
  /\ inLockstep sameCandidates
       (while_true 3 (@match_text_body Reference.env "LOG") (false, 0%nat, Reference.atLoop Reference.loginFrame Reference.loginDot))
       (while_true 3 (@match_text_body Reference.env "LOG") (false, 0%nat, otherScores)).
Proof.
  split; [|split].
  - destruct (proj1 (@text_search_accepts_first_match Reference.offFrame Reference.loginDot "LOG"
                       (Reference.wholeFrameOff Reference.inLogFrame)) 2%nat 1%nat)
      as (d' & Hrun & Hres & Himg & Hocr & Hex).
    + vm_compute. reflexivity.
    + vm_compute. reflexivity.
    + exists "IN!"%string, ""%string. vm_compute. reflexivity.
    + intros i Hi. assert (i = 0%nat) as -> by lia. vm_compute. reflexivity.
    + vm_compute. reflexivity.
    + lia.
    + exists d'. split; [exact Hrun|]. split; [|split; [|split]].
      * rewrite Hres. vm_compute. reflexivity.
      * rewrite Himg. vm_compute. reflexivity.
      * rewrite Hocr. reflexivity.
      * rewrite Hex. reflexivity.
  - assert (Hrun : exists d',
               @match_text Reference.env 100 Reference.whiteDot "A"
                 (@wholeFrameRoi Reference.env (Reference.start Reference.whiteDot)) = Some d')
      by (vm_compute; eexists; reflexivity).
    destruct Hrun as [d' Hrun]. exists d'.
    split; [exact Hrun|]. split; [vm_compute; reflexivity|].
    apply (proj1 (proj2 (@text_search_accepts_first_match Reference.env Reference.whiteDot "A"
                           (@wholeFrameRoi Reference.env (Reference.start Reference.whiteDot))))
             100%nat d').
    + vm_compute. reflexivity.
    + vm_compute. reflexivity.
    + intro Htext. apply find_substring in Htext. apply Htext. vm_compute. reflexivity.
    + exact Hrun.
  - apply (proj2 (proj2 (@text_search_accepts_first_match Reference.env Reference.loginDot "LOG"
                           (Reference.atLoop Reference.loginFrame Reference.loginDot)))).
    + intros a b H. apply H.
    + intros a b templ ratio H. now apply sameCandidates_next.
    + unfold sameButScores, otherScores.
      cbn [Detector.setMatchingResults Detector.scaleRatio Detector.screenImage
           Detector.conditionImage Detector.detectionRoi Detector.detectionResult
           Detector.calls Detector.matchingResults].
      do 6 (split; [reflexivity|]).
      split; [reflexivity|].
      exists 1%Q, 0%Q, (1 # 2)%Q, (1 # 4)%Q.
      split; [vm_compute; reflexivity|].
      split; [reflexivity|].
      split; left; split; reflexivity.
Defined.

(** C2 on concrete frames.  A white 2 x 2 frame and a black 2 x 2 template
    at threshold 50: the only candidate scores 0; the outcome is written
    once, with found = false, the centre (1, 1) of the candidate and its
    score.  The frame that reads LOGIN and the template that reads LOG, for
    the target LOG: the outcome is written once, with found = true, the
    centre (0, 0) of the first candidate and its score 1. *)
Lemma outcome_written_once_witness :
  (exists d',
     @match_threshold Reference.env 1 Reference.blackSquare 50 (@wholeFrameRoi Reference.env (Reference.start Reference.whiteSquare)) = Some d'
     /\ Detector.detectionResult d' = DetectionResult.make false 1 1 0%Q
     /\ resultWrites d' = 1%nat)
  /\ (exists d',
        @match_text Reference.env 1 Reference.loginDot "LOG" (@wholeFrameRoi Reference.env (Reference.start Reference.loginFrame)) = Some d'
        /\ Detector.detectionResult d' = DetectionResult.make true 0 0 1%Q
        /\ resultWrites d' = 1%nat).
Proof.
  split.
  - destruct (proj1 (proj2 (@outcome_written_once Reference.env Reference.blackSquare
                              (@wholeFrameRoi Reference.env (Reference.start Reference.whiteSquare))))
                1%nat 50 0%nat false)
      as (d' & Hrun & Hres & Hw).
    + vm_compute. reflexivity.
    + vm_compute. reflexivity.
    + intros i Hi. lia.
    + vm_compute. reflexivity.
    + lia.
    + exists d'. split; [exact Hrun|]. split.
      * rewrite Hres. vm_compute. reflexivity.
      * rewrite Hw. reflexivity.
  - destruct (proj1 (proj2 (proj2 (@outcome_written_once Reference.env Reference.loginDot
                              (@wholeFrameRoi Reference.env (Reference.start Reference.loginFrame)))))
                1%nat "LOG"%string 0%nat)
      as (d' & Hrun & Hres & Hw).
    + vm_compute. reflexivity.
    + vm_compute. reflexivity.
    + vm_compute. discriminate.
    + intros i Hi. lia.
    + vm_compute. reflexivity.
    + lia.
    + exists d'. split; [exact Hrun|]. split.
      * rewrite Hres. vm_compute. reflexivity.
      * rewrite Hw. reflexivity.
Defined.

(** C2: on that frame the call resolves not found through [setResults]: the
    outcome keeps the candidate's centre (1, 1), it is not the cleared
    value, and [clearResults] was not called. *)
Lemma visual_floor_failure_not_cleared :
  option_map Detector.detectionResult
    (@detectCondition_threshold Reference.env 1 Reference.blackSquare 50 (Reference.start Reference.whiteSquare))
  = Some (DetectionResult.make false 1 1 0%Q)
  /\ DetectionResult.make false 1 1 0%Q <> notFound
  /\ option_map (fun d => existsb (fun c => match c with CallClearResults => true | _ => false end)
                            (Detector.calls d))
       (@detectCondition_threshold Reference.env 1 Reference.blackSquare 50 (Reference.start Reference.whiteSquare))
     = Some false.
Proof.
  split; [vm_compute; reflexivity|].
  split; [discriminate | vm_compute; reflexivity].
Qed.

(** The colour distance of the visual loop is taken over the cropped screen
    image, which [setCropping] cut to the region of interest: on the black
    and white frame the white candidate is at distance 0 from the white
    template, the loop computes 50 and, at threshold 50, passes it over. *)
Remark colour_distance_over_search_area :
  candidateRegion (@locate Reference.env (Reference.atLoop Reference.blackWhite Reference.whiteDot)) = Reference.whiteDot
  /\ (getColorDiff (candidateRegion (@locate Reference.env (Reference.atLoop Reference.blackWhite Reference.whiteDot))) Reference.whiteDot == 0)%Q
  /\ (@candidateColorDiff (@locate Reference.env (Reference.atLoop Reference.blackWhite Reference.whiteDot)) == 50)%Q
  /\ @match_threshold_body Reference.env 50 (false, Reference.atLoop Reference.blackWhite Reference.whiteDot)
     = Continue (false, @locate Reference.env (Reference.atLoop Reference.blackWhite Reference.whiteDot)).
Proof. vm_compute. repeat split. Qed.

Lemma offFrame_single_cell (k : nat) :
  exists v roi maxVal,
    Detector.matchingResults (@locateN Reference.offFrame k (Reference.atLoopOff Reference.whiteDot Reference.whiteDot))
    = MatchingResults.make [[v]] roi maxVal.
Proof.
  induction k as [|k IH].
  - vm_compute. eexists _, _, _. reflexivity.
  - destruct IH as (v & roi & maxVal & E).
    cbn [locateN]. unfold locate at 1. cbn [Detector.log Detector.setMatchingResults Detector.matchingResults].
    unfold nextCandidate. rewrite E. cbn.
    eexists _, _, _. reflexivity.
Qed.

Lemma offFrame_always_out (k : nat) :
  @candidateInBounds Reference.offFrame (@locateN Reference.offFrame (S k) (Reference.atLoopOff Reference.whiteDot Reference.whiteDot)) = false.
Proof.
  destruct (offFrame_single_cell k) as (v & roi & maxVal & E).
  cbn [locateN]. unfold candidateInBounds, locate.
  cbn [Detector.log Detector.setMatchingResults Detector.matchingResults Detector.screenImage].
  unfold nextCandidate.
  rewrite E, (@screenImage_locateN Reference.offFrame), (@conditionImage_locateN Reference.offFrame).
  vm_compute. reflexivity.
Qed.

(** C5: a white 1 x 1 frame searched for a white 1 x 1 template and the
    target A, which the frame does not read.  The first extraction uses up
    the surface: its one cell holds the sentinel from then on.  The call
    does not return with fewer attempts for that: with fuel 99 it has not
    returned, and with fuel 100 it returns after exactly 100 OCR attempts
    and 100 extractions. *)
Lemma text_search_used_up_surface_still_100 :
  find (@extractedText Reference.env (Reference.atLoop Reference.whiteDot Reference.whiteDot)) "A" = None
  /\ MatchingResults.results
       (Detector.matchingResults
          (@locateN Reference.env 1 (Reference.atLoop Reference.whiteDot Reference.whiteDot)))
     = [[Reference.sentinel]]
  /\ @detectCondition_text Reference.env 99 Reference.whiteDot "A" (Reference.start Reference.whiteDot) = None
  /\ option_map (fun d => (Detector.detectionResult d, ocrAttempts d, extractions d))
       (@detectCondition_text Reference.env 100 Reference.whiteDot "A" (Reference.start Reference.whiteDot))
     = Some (notFound, 100%nat, 100%nat).
Proof. vm_compute. repeat split. Qed.


(** C10: the detector holds a white 2 x 2 bitmap under the name
    [conditionBitmap]; the caller passes the 1 x 1 template that reads LOG,
    on the frame that reads LOGIN.  The whole-frame text overload reads the
    2 x 2 bitmap, finds it too large and clears the outcome; the overload
    with a rectangle, given the whole frame, reads the caller's template and
    finds the text. *)
Theorem detectCondition_text_reads_other_bitmap :
  option_map (fun d => (DetectionResult.found (Detector.detectionResult d), bitmapsRead d))
    (@detectCondition_text Reference.env 1 Reference.loginDot "LOG"
       (Reference.startWith Reference.whiteSquare Reference.loginFrame))
  = Some (false, [Reference.whiteSquare])
  /\ option_map (fun d => (DetectionResult.found (Detector.detectionResult d), bitmapsRead d))
       (@detectCondition_rect_text Reference.env 1 Reference.loginDot 0 0 2 1 "LOG"
          (Reference.startWith Reference.whiteSquare Reference.loginFrame))
     = Some (true, [Reference.loginDot]).
Proof. vm_compute. repeat split. Qed.

(** ** The further properties on concrete frames *)

(** X1 on concrete scores: 0.5 clears the floor 0.4 of threshold 60, so 0.75
    clears the floor 0.1 of threshold 90. *)
Lemma isResultAboveThreshold_monotone_witness :
  isResultAboveThreshold
    (MatchingResults.make [] (ScalableRoi.make (Rect.make 0 0 0 0) (Rect.make 0 0 0 0)) (3 # 4))
    90 = true.
Proof.
  apply (isResultAboveThreshold_monotone
           (MatchingResults.make [] (ScalableRoi.make (Rect.make 0 0 0 0) (Rect.make 0 0 0 0))
              (1 # 2))
           _ 60 90).
  - vm_compute. reflexivity.
  - lia.
  - vm_compute. reflexivity.
  - vm_compute. discriminate.
  - vm_compute. reflexivity.
Defined.

(** X2 on a concrete score: the score 1 does not clear threshold 0. *)
Lemma isResultAboveThreshold_outside_0_100_witness :
  isResultAboveThreshold
    (MatchingResults.make [] (ScalableRoi.make (Rect.make 0 0 0 0) (Rect.make 0 0 0 0)) 1%Q)
    0 = false.
Proof.
  apply (isResultAboveThreshold_outside_0_100
           (MatchingResults.make [] (ScalableRoi.make (Rect.make 0 0 0 0) (Rect.make 0 0 0 0))
              1%Q) 0).
  - vm_compute. reflexivity.
  - vm_compute. reflexivity.
  - split; vm_compute; discriminate.
  - lia.
Defined.

(** X4 on concrete images: a row of a black and a white pixel, and a column
    of a white and a black one. *)
Lemma getColorDiff_blind_to_layout_witness :
  getColorDiff [[Reference.black; Reference.white]] Reference.whiteDot
  = getColorDiff [[Reference.white]; [Reference.black]] Reference.whiteDot
  /\ (getColorDiff [[Reference.black; Reference.white]]
                   [[Reference.white]; [Reference.black]] == 0)%Q.
Proof.
  apply (getColorDiff_blind_to_layout
           [[Reference.black; Reference.white]] [[Reference.white]; [Reference.black]]
           Reference.whiteDot).
  cbn [concat app]. apply perm_swap.
Defined.

(** X8 on a concrete frame: a white 2 x 2 frame, a black 2 x 2 template,
    threshold 50. *)
Lemma visual_outcome_sound_witness :
  exists d',
    @match_threshold Reference.env 1 Reference.blackSquare 50
      (@wholeFrameRoi Reference.env (Reference.start Reference.whiteSquare)) = Some d'
    /\ (DetectionResult.found (Detector.detectionResult d') = true
        <-> (inject_Z (100 - 50) / 100
             < DetectionResult.confidence (Detector.detectionResult d'))%Q).
Proof.
  eexists. split; [vm_compute; reflexivity|].
  apply (@visual_outcome_sound Reference.env 1%nat Reference.blackSquare 50
           (@wholeFrameRoi Reference.env (Reference.start Reference.whiteSquare))).
  - vm_compute. reflexivity.
  - vm_compute. reflexivity.
  - lia.
  - vm_compute. reflexivity.
Defined.

(** X9 on a concrete frame: the black and white frame is at distance 50 from
    the white template, so threshold 50 finds nothing although the white
    pixel scores 1. *)
Lemma visual_never_found_when_colour_off_witness :
  exists d',
    @match_threshold Reference.env 2 Reference.whiteDot 50
      (@wholeFrameRoi Reference.env (Reference.start Reference.blackWhite)) = Some d'
    /\ DetectionResult.found (Detector.detectionResult d') = false.
Proof.
  eexists. split; [vm_compute; reflexivity|].
  apply (@visual_never_found_when_colour_off Reference.env 2%nat Reference.whiteDot 50
           (@wholeFrameRoi Reference.env (Reference.start Reference.blackWhite))).
  - vm_compute. discriminate.
  - vm_compute. reflexivity.
Defined.

(** X10 on a concrete frame: the first candidate is reported off the frame,
    the second one decides. *)
Lemma visual_first_in_bounds_decides_witness :
  @match_threshold Reference.offFrame 2 Reference.whiteDot 60
    (Reference.wholeFrameOff Reference.blackWhite)
  = Some (@reportResults Reference.offFrame
            (isResultAboveThreshold
               (Detector.matchingResults
                  (@locateN Reference.offFrame 2
                     (Reference.atLoopOff Reference.blackWhite Reference.whiteDot)))
               60)
            (@locateN Reference.offFrame 2
               (Reference.atLoopOff Reference.blackWhite Reference.whiteDot))).
Proof.
  apply (@visual_first_in_bounds_decides Reference.offFrame 2%nat 1%nat Reference.whiteDot 60
           (Reference.wholeFrameOff Reference.blackWhite)).
  - vm_compute. reflexivity.
  - vm_compute. reflexivity.
  - vm_compute. reflexivity.
  - intros i Hi. assert (i = 0%nat) as -> by lia. vm_compute. reflexivity.
  - vm_compute. reflexivity.
  - lia.
Defined.

(** X11 on a concrete frame: every candidate is reported off the frame. *)
Lemma visual_search_unbounded_witness :
  @match_threshold Reference.offFrame 7 Reference.whiteDot 50
    (Reference.wholeFrameOff Reference.whiteDot) = None.
Proof.
  apply (@visual_search_unbounded Reference.offFrame 7%nat Reference.whiteDot 50
           (Reference.wholeFrameOff Reference.whiteDot)).
  - vm_compute. reflexivity.
  - vm_compute. reflexivity.
  - intro k. left. apply offFrame_always_out.
Defined.

(** X12 on a concrete frame: every candidate is reported off the frame. *)
Lemma text_search_unbounded_witness :
  @match_text Reference.offFrame 7 Reference.whiteDot "A"
    (Reference.wholeFrameOff Reference.whiteDot) = None.
Proof.
  apply (@text_search_unbounded Reference.offFrame 7%nat Reference.whiteDot "A"
           (Reference.wholeFrameOff Reference.whiteDot)).
  - vm_compute. reflexivity.
  - vm_compute. reflexivity.
  - apply offFrame_always_out.
Defined.

(** X13 on a concrete frame: the frame that reads LOGIN, the target LOG. *)
Lemma text_outcome_complete_witness :
  exists d',
    @match_text Reference.env 1 Reference.loginDot "LOG"
      (@wholeFrameRoi Reference.env (Reference.start Reference.loginFrame)) = Some d'
    /\ DetectionResult.found (Detector.detectionResult d') = true
    /\ ocrImages d' = [toPix Reference.loginFrame].
Proof.
  eexists. split; [vm_compute; reflexivity|].
  match goal with
  | |- DetectionResult.found (Detector.detectionResult ?x) = true /\ _ =>
      destruct (@text_outcome_complete Reference.env 1%nat Reference.loginDot "LOG"
                  (@wholeFrameRoi Reference.env (Reference.start Reference.loginFrame)) x)
        as [(_ & Hfound & Himg & _) | (_ & Hres & _)]
  end.
  - vm_compute. reflexivity.
  - vm_compute. reflexivity.
  - vm_compute. reflexivity.
  - split; [exact Hfound | exact Himg].
  - vm_compute in Hres. discriminate.
Defined.

(** X14 on a concrete frame: the white square against the black one. *)
Lemma call_writes_outcome_once_witness :
  exists d',
    @match_threshold Reference.env 1 Reference.blackSquare 50
      (@wholeFrameRoi Reference.env (Reference.start Reference.whiteSquare)) = Some d'
    /\ resultWrites d'
       = S (resultWrites (@wholeFrameRoi Reference.env (Reference.start Reference.whiteSquare))).
Proof.
  eexists. split; [vm_compute; reflexivity|].
  apply (@call_writes_outcome_once Reference.env 1%nat Reference.blackSquare 50 "A"
           (@wholeFrameRoi Reference.env (Reference.start Reference.whiteSquare))).
  left. vm_compute. reflexivity.
Defined.

(** X15 on a concrete frame: a white pixel, which reads no text. *)
Lemma text_empty_target_always_found_witness :
  exists d',
    @match_text Reference.env 1 Reference.whiteDot ""
      (@wholeFrameRoi Reference.env (Reference.start Reference.whiteDot)) = Some d'
    /\ DetectionResult.found (Detector.detectionResult d') = true
    /\ ocrAttempts d'
       = S (ocrAttempts (@wholeFrameRoi Reference.env (Reference.start Reference.whiteDot))).
Proof.
  apply (@text_empty_target_always_found Reference.env 1%nat 0%nat Reference.whiteDot
           (@wholeFrameRoi Reference.env (Reference.start Reference.whiteDot))).
  - vm_compute. reflexivity.
  - vm_compute. reflexivity.
  - intros i Hi. lia.
  - vm_compute. reflexivity.
  - lia.
Defined.
